(** * mongoose-tenant: tenant scoping of mongoose models

    A shallow embedding of [src/lib/index.ts]: the class expression of
    [createBoundModel] (the members it declares, and where it puts them),
    the [MongoTenant] plugin class (options, schema extension, index
    rewriting, accessor with its model cache, middleware) and the properties
    the specification states about them.

    A class has two sides, and the development keeps them apart as the
    runtime does: the properties of the class itself, which an expression
    such as [Model.deleteMany] or [this.model.hasTenantContext] reads, and
    the members of the objects the class constructs, which [doc.save] or
    [doc.getTenant] reads. *)

From stdpp Require Import base strings list gmap pretty.

Open Scope string_scope.
Open Scope list_scope.
Set Warnings "-register-all".

(** ** Values and objects of the runtime *)

Module JS.

Definition loc := positive.

Inductive value :=
  | VUndefined
  | VNull
  | VBool (b : bool)
  | VNumber (n : Z)              (* integer-valued numbers *)
  | VString (s : string)
  | VBuiltin (name : string)     (* a function of the runtime, e.g. the String constructor *)
  | VRef (l : loc).              (* an object of the program *)

#[global] Instance value_eq_dec : EqDecision value.
Proof. solve_decision. Defined.

(** Own properties in creation order. *)
Abbreviation props := (list (string * value)).

(** What a call produces: a result or a thrown [TypeError]. *)
Inductive outcome (A : Type) :=
  | Returned (a : A)
  | TypeError.
Arguments Returned {A} a.
Arguments TypeError {A}.

#[global] Instance outcome_ret : MRet outcome := fun A a => Returned a.
#[global] Instance outcome_bind : MBind outcome := fun A B f m =>
  match m with
  | Returned a => f a
  | TypeError => TypeError
  end.

(** [!v] is [negb (truthy v)]. *)
Definition truthy (v : value) : bool :=
  match v with
  | VUndefined | VNull => false
  | VBool b => b
  | VNumber n => negb (Z.eqb n 0)
  | VString s => negb (String.eqb s "")
  | VBuiltin _ | VRef _ => true
  end.

(** [a === b] on the values modelled here. *)
Definition strict_eq (a b : value) : bool := bool_decide (a = b).

(** [o[k]] on a property list. *)
Fixpoint lookup_prop {A} (k : string) (ps : list (string * A)) : option A :=
  match ps with
  | [] => None
  | (k', v) :: r => if String.eqb k' k then Some v else lookup_prop k r
  end.

(** An absent property reads [undefined]. *)
Definition get_prop (k : string) (ps : props) : value :=
  default VUndefined (lookup_prop k ps).

(** [o[k] = v] on a property list: an existing property keeps its place,
    a new one is created last. *)
Fixpoint set_prop {A} (k : string) (v : A) (ps : list (string * A)) : list (string * A) :=
  match ps with
  | [] => [(k, v)]
  | (k', v') :: r =>
      if String.eqb k' k then (k', v) :: r else (k', v') :: set_prop k v r
  end.

Definition keys (ps : props) : list string := ps.*1.

Definition is_digit (a : Ascii.ascii) : bool :=
  (48 <=? Ascii.N_of_ascii a)%N && (Ascii.N_of_ascii a <=? 57)%N.

Fixpoint decimal (s : string) (acc : N) : option N :=
  match s with
  | EmptyString => Some acc
  | String a r =>
      if is_digit a then decimal r (acc * 10 + (Ascii.N_of_ascii a - 48))%N else None
  end.

(** The array index a property name stands for: the name is the decimal
    numeral, without leading zeros, of a number up to 2^32 - 2. *)
Definition array_index (k : string) : option N :=
  match k with
  | EmptyString => None
  | String a r =>
      if (Ascii.N_of_ascii a =? 48)%N && negb (bool_decide (r = EmptyString)) then None
      else n ← decimal k 0; if (n <=? 4294967294)%N then Some n else None
  end.

Fixpoint insert_index (i : N) (k : string) (l : list (N * string)) : list (N * string) :=
  match l with
  | [] => [(i, k)]
  | (j, k') :: r => if (i <=? j)%N then (i, k) :: l else (j, k') :: insert_index i k r
  end.

(** The order in which [for ... in], [Object.keys] and the spread syntax
    visit the own properties: the names that are array indices in ascending
    numeric order, then the other names in creation order. *)
Definition enumerate (ps : props) : list string :=
  (foldr (fun k acc => match array_index k with
                       | Some i => insert_index i k acc
                       | None => acc
                       end) [] (keys ps)).*2
  ++ filter (fun k => array_index k = None) (keys ps).

(** [{ ...a, ...b }]: every property of [b] is written over a copy of [a].
    The copy is given the properties of [a] in the order [a] lists them; the
    runtime creates them in the order it enumerates [a], which a later
    enumeration does not tell apart. *)
Definition spread (a b : props) : props :=
  fold_left (fun acc k => set_prop k (get_prop k b) acc) (enumerate b) a.

(** The names every plain object inherits from [Object.prototype]: reading
    one of them on an object that has no own property of that name yields
    the inherited member, a function (for [__proto__], the prototype object
    itself), which is truthy. *)
Definition object_prototype_members : list string :=
  ["constructor"; "__defineGetter__"; "__defineSetter__"; "hasOwnProperty";
   "__lookupGetter__"; "__lookupSetter__"; "isPrototypeOf"; "propertyIsEnumerable";
   "toString"; "valueOf"; "__proto__"; "toLocaleString"].

Definition on_prototype (k : string) : bool :=
  bool_decide (k ∈ object_prototype_members).

End JS.
Import JS.

(** ** Model classes *)

(** A connection handle; [createTenantAwareDb] derives a tenant-aware handle
    from the handle of the base model. *)
Inductive Connection :=
  | BaseConnection (name : string)
  | TenantAwareDb (unawareDb : Connection) (tenantId : value).

#[global] Instance Connection_eq_dec : EqDecision Connection.
Proof. solve_decision. Defined.

(** An own property of a model class: a function, with the value a call
    without arguments returns, or any other value. *)
Inductive own_property :=
  | Function (returns : value)
  | Data (v : value).

(** A model class of the host: its name, its connection, its other own
    (static) properties and its discriminator sub-models, in the order
    [for ... in] visits them. *)
Inductive Model :=
  | MkModel (modelName : string) (db : Connection)
            (ownProperties : list (string * own_property))
            (discriminators : option (list (string * Model))).

Definition modelName (m : Model) : string :=
  match m with MkModel n _ _ _ => n end.
Definition model_db (m : Model) : Connection :=
  match m with MkModel _ d _ _ => d end.
Definition ownProperties (m : Model) : list (string * own_property) :=
  match m with MkModel _ _ ps _ => ps end.
Definition model_discriminators (m : Model) : option (list (string * Model)) :=
  match m with MkModel _ _ _ ds => ds end.

(** The class [MongoTenantModel] returned by [createBoundModel]. Every
    evaluation of the class expression creates a new class; [stamp] is its
    identity. [BaseModel] is the class it extends; [tenantId], [tenantIdKey]
    and [db] are the variables its body closes over. [inherited] and
    [discriminators] are the static properties [createTenantAwareModel]
    defines on the class afterwards. *)
Inductive BoundModel :=
  | MkBoundModel (stamp : nat) (BaseModel : Model) (tenantId : value)
                 (tenantIdKey : string) (db : Connection)
                 (inherited : list (string * own_property))
                 (discriminators : option (list (string * BoundModel))).

Definition stamp (m : BoundModel) : nat :=
  match m with MkBoundModel s _ _ _ _ _ _ => s end.
Definition BaseModel (m : BoundModel) : Model :=
  match m with MkBoundModel _ b _ _ _ _ _ => b end.
Definition tenantId_of (m : BoundModel) : value :=
  match m with MkBoundModel _ _ t _ _ _ _ => t end.
Definition tenantIdKey_of (m : BoundModel) : string :=
  match m with MkBoundModel _ _ _ k _ _ _ => k end.
Definition db_of (m : BoundModel) : Connection :=
  match m with MkBoundModel _ _ _ _ d _ _ => d end.
Definition bound_inherited (m : BoundModel) : list (string * own_property) :=
  match m with MkBoundModel _ _ _ _ _ ps _ => ps end.
Definition bound_discriminators (m : BoundModel) : option (list (string * BoundModel)) :=
  match m with MkBoundModel _ _ _ _ _ _ ds => ds end.

Definition createBoundModel (BaseModel : Model) (tenantId : value)
    (tenantIdKey : string) (db : Connection) (stamp : nat) : BoundModel :=
  MkBoundModel stamp BaseModel tenantId tenantIdKey db [] None.

(** [Object.defineProperty(MongoTenantModel, ...)] for the static properties
    taken over from the base model, and [MongoTenantModel.discriminators = ...]. *)
Definition defineProperties (m : BoundModel) (ps : list (string * own_property)) : BoundModel :=
  match m with
  | MkBoundModel s b t k d _ ds => MkBoundModel s b t k d ps ds
  end.
Definition set_discriminators (m : BoundModel) (ds : list (string * BoundModel)) : BoundModel :=
  match m with
  | MkBoundModel s b t k d ps _ => MkBoundModel s b t k d ps (Some ds)
  end.

(** Where a class body puts a member. *)
Inductive placement :=
  | Static             (* a property of the class itself *)
  | InstanceField      (* set on every object the class constructs *)
  | PrototypeMethod.   (* a method of the objects the class constructs *)

#[global] Instance placement_eq_dec : EqDecision placement.
Proof. solve_decision. Defined.

(** The members the class body of [createBoundModel] declares, in source
    order. None of them carries the [static] keyword. *)
Definition class_body : list (string * placement) :=
  [("db", InstanceField);
   ("hasTenantContext", InstanceField);
   ("getTenant", PrototypeMethod);
   ("aggregate", PrototypeMethod);
   ("deleteOne", PrototypeMethod);
   ("deleteMany", PrototypeMethod);
   ("remove", PrototypeMethod);
   ("insertMany", PrototypeMethod)].

(** An object constructed by the class: [new MongoTenantModel(fields)]. *)
Record Instance := New {
  class_of : BoundModel;
  fields_of : props
}.

(** The fields and the accessor method of the class body, as the objects
    the class constructs have them. (What the methods [aggregate],
    [deleteOne], [deleteMany], [remove] and [insertMany] of such an object
    do is not part of this development.) *)
Module MongoTenantModel.

Definition db (this : Instance) : Connection := db_of (class_of this).

Definition hasTenantContext (this : Instance) : bool := true.

Definition getTenant (this : Instance) : value := tenantId_of (class_of this).

End MongoTenantModel.

(** ** Properties of the classes themselves *)

(** What the accessor of the plugin can hand back, and so what a query or a
    document can belong to: the model the host compiled from the schema, a
    tenant-bound class derived from it, or a member of [Object.prototype]
    that a lookup in a cache object has hit: [Inherited k] is
    [Object.prototype[k]]; [Unfollowed k] stands for whatever the code goes
    on to do with [Object.prototype[k]] taken as the cache of a model named
    [k], which this development does not follow. *)
Inductive ModelClass :=
  | Unbound (m : Model)
  | Bound (m : BoundModel)
  | Inherited (name : string)
  | Unfollowed (name : string).

(** Where the read of a property of a class ends. *)
Inductive class_property :=
  | Declared (name : string)    (* a static member of the class body *)
  | Own (p : own_property)      (* an own property of the class or of the base model *)
  | OfHost (name : string)      (* the property of that name of the host's Model class *)
  | Absent.

(** [cls[name]], for names other than [length], [name] and [prototype] and
    other than the properties a model carries in fields of their own
    ([modelName], [db], [discriminators]): a static member of the class
    body, else a static property copied from the base model, else, along
    the chain of classes, an own property of the base model, else whatever
    the host's [Model] class has. *)
Definition class_lookup (cls : ModelClass) (name : string) : class_property :=
  match cls with
  | Bound m =>
      if bool_decide ((name, Static) ∈ class_body) then Declared name
      else
        match lookup_prop name (bound_inherited m) with
        | Some p => Own p
        | None =>
            match lookup_prop name (ownProperties (BaseModel m)) with
            | Some p => Own p
            | None => OfHost name
            end
        end
  | Unbound b =>
      match lookup_prop name (ownProperties b) with
      | Some p => Own p
      | None => OfHost name
      end
  | Inherited _ | Unfollowed _ => Absent
  end.

(** Modelled from the spec: the model operations of the host (section 6),
    static methods of its [Model] class. The host has no static named
    [hasTenantContext] or [getTenant]. *)
Definition host_operations : list string :=
  ["find"; "findOne"; "findOneAndRemove"; "findOneAndUpdate"; "count"; "countDocuments";
   "update"; "updateOne"; "updateMany"; "deleteOne"; "deleteMany"; "remove";
   "aggregate"; "insertMany"].

(** The truthiness of [model.hasTenantContext]. *)
Definition Model_hasTenantContext (cls : ModelClass) : bool :=
  match class_lookup cls "hasTenantContext" with
  | Declared _ => true
  | Own (Function _) => true
  | Own (Data v) => truthy v
  | OfHost _ | Absent => false
  end.

(** [model.getTenant()]: calling what is not a function throws. *)
Definition Model_getTenant (cls : ModelClass) : outcome value :=
  match class_lookup cls "getTenant", cls with
  | Declared _, Bound m => Returned (tenantId_of m)
  | Own (Function returns), _ => Returned returns
  | _, _ => TypeError
  end.

(** [model.db] *)
Definition Model_db (cls : ModelClass) : option Connection :=
  match cls with
  | Bound m =>
      if bool_decide (("db", Static) ∈ class_body) then Some (db_of m)
      else Some (model_db (BaseModel m))      (* the copy of the base model's own [db] *)
  | Unbound b => Some (model_db b)
  | Inherited _ | Unfollowed _ => None
  end.

(** An argument of a call of a model operation. *)
Inductive argument :=
  | AObject (fields : props)         (* a filter, a document, an options object *)
  | AArray (elems : list props)      (* an array of documents or of pipeline stages *)
  | AFunction                        (* a callback *)
  | AValue (v : value).

(** What a call [cls.name(...args)] runs. *)
Inductive class_call :=
  | RunsClassBody (name : string)                   (* the static member of the class body *)
  | RunsOwn (returns : value)                       (* a function among the own properties *)
  | RunsHost (name : string) (args : list argument) (* the operation of the host, given the
                                                       arguments of the call as they are *)
  | Throws.                                         (* not a function *)

Definition call_on_class (cls : ModelClass) (name : string) (args : list argument)
    : class_call :=
  match class_lookup cls name with
  | Declared n => RunsClassBody n
  | Own (Function returns) => RunsOwn returns
  | Own (Data _) => Throws
  | OfHost n => if bool_decide (n ∈ host_operations) then RunsHost n args else Throws
  | Absent => Throws
  end.

(** ** The host's schema, queries and documents *)

(** A query under construction: its model, filter and update payload. *)
Record Query := MkQuery {
  q_model : ModelClass;
  _conditions : props;
  _update : props
}.

Definition getQuery (q : Query) : props := _conditions q.
Definition setQuery (q : Query) (c : props) : Query :=
  MkQuery (q_model q) c (_update q).
(** [Query.set(path, val)] records [path: val] in the update payload. *)
Definition Query_set (q : Query) (path : string) (val : value) : Query :=
  MkQuery (q_model q) (_conditions q) (set_prop path val (_update q)).

(** A document: the class that constructed it and its fields. *)
Record Document := MkDocument {
  doc_constructor : ModelClass;
  doc_fields : props
}.

Definition Document_set (d : Document) (path : string) (val : value) : Document :=
  MkDocument (doc_constructor d) (set_prop path val (doc_fields d)).

(** A pre-hook receives its subject as [this] and the continuation [next];
    what it throws ends the operation. *)
Inductive middleware :=
  | QueryMiddleware (f : forall R : Type, Query -> (Query -> outcome R) -> outcome R)
  | DocumentMiddleware (f : forall R : Type, Document -> (Document -> outcome R) -> outcome R).

Inductive static_member :=
  | AccessorFunction     (* the function registered by [injectApi] *)
  | PluginReference.     (* the plugin instance, the value [Object.assign] reads
                            from the getter [mongoTenant] *)

(** The schema as the plugin uses it: [paths] holds, per path, the options it
    was declared with, in the order [eachPath] visits the paths (the order
    of declaration, for path names that are not array indices; [Schema_add]
    follows that order); [_indexes] holds the schema-level index
    declarations, pairs of key specification and options ([indexes()] hands
    out these pairs themselves, [index()] appends one). *)
Record Schema := MkSchema {
  paths : list (string * props);
  _indexes : list (props * props);
  statics : list (string * static_member);
  pres : list (string * middleware)
}.

Definition Schema_add (s : Schema) (key : string) (options : props) : Schema :=
  MkSchema (set_prop key options (paths s)) (_indexes s) (statics s) (pres s).
Definition Schema_index (s : Schema) (fields options : props) : Schema :=
  MkSchema (paths s) (_indexes s ++ [(fields, options)]) (statics s) (pres s).
Definition Schema_static (s : Schema) (name : string) (f : static_member) : Schema :=
  MkSchema (paths s) (_indexes s) (set_prop name f (statics s)) (pres s).
Definition Schema_pre (s : Schema) (name : string) (f : middleware) : Schema :=
  MkSchema (paths s) (_indexes s) (statics s) (pres s ++ [(name, f)]).

(** ** The plugin class *)

Module MongoTenant.

(** The options as the caller passes them ([None]: not given). *)
Record MongoTenantOptions := MkOptions {
  opt_enabled : option bool;
  opt_tenantIdKey : option string;
  opt_tenantIdType : option value;
  opt_accessorMethod : option string;
  opt_requireTenantId : option bool
}.

Record RequiredOptions := MkRequiredOptions {
  enabled : bool;
  tenantIdKey : string;
  tenantIdType : value;
  accessorMethod : string;
  requireTenantId : bool
}.

(** [_modelCache] holds the own properties of the cache objects: model
    name, then string form of the tenant identifier. The cache objects are
    plain objects, so a read also finds what [Object.prototype] has; the
    accessor below accounts for that. *)
Record MongoTenant := MkMongoTenant {
  schema : Schema;
  options : RequiredOptions;
  _modelCache : gmap string (gmap string BoundModel)
}.

Definition constructor (schema : Schema) (options : MongoTenantOptions) : MongoTenant :=
  {| _modelCache := ∅;
     schema := schema;
     options :=
       {| enabled := default true (opt_enabled options);
          tenantIdKey := default "tenant" (opt_tenantIdKey options);
          tenantIdType := default (VBuiltin "String") (opt_tenantIdType options);
          accessorMethod := default "byTenant" (opt_accessorMethod options);
          requireTenantId := default false (opt_requireTenantId options) |} |}.

Definition with_schema (this : MongoTenant) (s : Schema) : MongoTenant :=
  MkMongoTenant s (options this) (_modelCache this).
Definition with_modelCache (this : MongoTenant)
    (c : gmap string (gmap string BoundModel)) : MongoTenant :=
  MkMongoTenant (schema this) (options this) c.

Definition isEnabled (this : MongoTenant) : bool := enabled (options this).
Definition getTenantIdKey (this : MongoTenant) : string := tenantIdKey (options this).
Definition getTenantIdType (this : MongoTenant) : value := tenantIdType (options this).
Definition getAccessorMethod (this : MongoTenant) : string := accessorMethod (options this).
Definition isTenantIdRequired (this : MongoTenant) : bool := requireTenantId (options this).

(** A property of the object handed to [isCompatibleTo]: a function (with
    the value a call returns) or anything else. *)
Inductive member :=
  | Method (returns : value)
  | NotAFunction (v : value).

Definition typeof_function (m : member) : bool :=
  match m with Method _ => true | NotAFunction _ => false end.

Definition call (m : member) : value :=
  match m with Method r => r | NotAFunction _ => VUndefined end.

(** The argument of [isCompatibleTo] when it is truthy, seen through the
    two members the method looks at. *)
Record plugin_object := MkPluginObject {
  member_getAccessorMethod : member;
  member_getTenantIdKey : member
}.

(** A plugin instance passed as that argument. *)
Definition as_object (p : MongoTenant) : plugin_object :=
  {| member_getAccessorMethod := Method (VString (getAccessorMethod p));
     member_getTenantIdKey := Method (VString (getTenantIdKey p)) |}.

(** [plugin] is [None] for an absent (or otherwise falsy) argument. *)
Definition isCompatibleTo (this : MongoTenant) (plugin : option plugin_object) : bool :=
  match plugin with
  | None => false
  | Some p =>
      typeof_function (member_getAccessorMethod p)
      && typeof_function (member_getTenantIdKey p)
      && strict_eq (VString (getTenantIdKey this)) (call (member_getTenantIdKey p))
  end.

Definition extendSchema (this : MongoTenant) : MongoTenant :=
  if negb (isEnabled this) then this
  else
    with_schema this
      (Schema_add (schema this) (getTenantIdKey this)
         [("index", VBool true);
          ("type", getTenantIdType this);
          ("required", VBool (isTenantIdRequired this))]).

(** [x === true] on a property that may be absent. *)
Definition is_true (ps : props) (k : string) : bool :=
  strict_eq (get_prop k ps) (VBool true).

(** [{ [tenantIdKey]: 1 }] followed by the [for ... in] loop over the
    original key specification; the result lists the properties in the order
    of their creation. *)
Definition tenantAwareIndex (tenantIdKey : string) (def : props) : props :=
  fold_left (fun acc indexedField => set_prop indexedField (get_prop indexedField def) acc)
            (enumerate def) [(tenantIdKey, VNumber 1)].

Definition rewrite_index (tenantIdKey : string) (index : props * props) : props * props :=
  if negb (is_true index.2 "unique") || is_true index.2 "preserveUniqueKey" then index
  else (tenantAwareIndex tenantIdKey index.1, index.2).

Definition compound_path (tenantIdKey : string) (s : Schema) (p : string * props) : Schema :=
  let '(key, path_options) := p in
  if negb (is_true path_options "unique") || is_true path_options "preserveUniqueKey" then s
  else
    Schema_index s
      (set_prop key (VNumber 1) [(tenantIdKey, VNumber 1)])
      (spread path_options [("unique", VBool true)]).

Definition compoundIndexes (this : MongoTenant) : MongoTenant :=
  if negb (isEnabled this) then this
  else
    let s := schema this in
    let s1 := MkSchema (paths s) (rewrite_index (getTenantIdKey this) <$> _indexes s)
                       (statics s) (pres s) in
    with_schema this (fold_left (compound_path (getTenantIdKey this)) (paths s1) s1).

Definition injectApi (this : MongoTenant) : MongoTenant :=
  with_schema this
    (Schema_static (Schema_static (schema this) (getAccessorMethod this) AccessorFunction)
                   "mongoTenant" PluginReference).

Definition createTenantAwareDb (unawareDb : Connection) (tenantId : value) : Connection :=
  TenantAwareDb unawareDb tenantId.

(** Static properties the class expression has of its own. *)
Definition class_own_properties : list string := ["length"; "name"; "prototype"].

Definition inherit_statics (ps : list (string * own_property)) : list (string * own_property) :=
  filter (fun kv => (fst kv ∉ class_own_properties) ∧ (fst kv ∉ ["arguments"; "caller"])) ps.

(** [n] counts the classes created so far; each new class takes the next
    stamp. The discriminators are bound recursively, in key order. *)
Fixpoint createTenantAwareModel (tenantIdKey : string) (B : Model) (tenantId : value)
    (n : nat) : BoundModel * nat :=
  match B with
  | MkModel _ unawareDb ps ds =>
      let db := createTenantAwareDb unawareDb tenantId in
      let MongoTenantModel := createBoundModel B tenantId tenantIdKey db n in
      let MongoTenantModel := defineProperties MongoTenantModel (inherit_statics ps) in
      match ds with
      | None => (MongoTenantModel, S n)
      | Some l =>
          let '(l', n') :=
            (fix bind_all (l : list (string * Model)) (n : nat) :=
               match l with
               | [] => ([], n)
               | (key, d) :: r =>
                   let '(m, n1) := createTenantAwareModel tenantIdKey d tenantId n in
                   let '(ms, n2) := bind_all r n1 in
                   ((key, m) :: ms, n2)
               end) l (S n) in
          (set_discriminators MongoTenantModel l', n')
      end
  end.

Section Accessor.

(** The conversion [String(tenantId)] of the runtime. *)
Variable String_of : value -> string.

(** The static method [injectApi] registers, called on the model [this]
    with a tenant identifier; the arrow closes over the flag, the cache
    and the factory of the plugin [P]. A read [o[k]] of a cache object is
    truthy when [o] has an own property [k] or when [k] names a member of
    [Object.prototype]. When the name of the model itself names such a
    member and the cache has no own property for it, the code takes that
    member for the cache of the model; what it then reads from it, sets on
    it or creates is not followed. *)
Definition accessor (P : MongoTenant) (this : Model) (tenantId : value) (n : nat)
    : ModelClass * MongoTenant * nat :=
  if negb (isEnabled P) then (Unbound this, P, n)
  else
    let modelCache :=
      match _modelCache P !! modelName this with
      | Some _ => _modelCache P
      | None =>
          if on_prototype (modelName this) then _modelCache P
          else <[modelName this := ∅]> (_modelCache P)
      end in
    let strTenantId := String_of tenantId in
    match modelCache !! modelName this with
    | None => (Unfollowed (modelName this), with_modelCache P modelCache, n)
    | Some cachedModels =>
        match cachedModels !! strTenantId with
        | Some m => (Bound m, with_modelCache P modelCache, n)
        | None =>
            if on_prototype strTenantId
            then (Inherited strTenantId, with_modelCache P modelCache, n)
            else
              let '(m, n') := createTenantAwareModel (getTenantIdKey P) this tenantId n in
              (Bound m,
               with_modelCache P
                 (<[modelName this := <[strTenantId := m]> cachedModels]> modelCache),
               n')
        end
    end.

End Accessor.

Definition preFindOrCount (tenantIdKey : string) (R : Type) (this : Query)
    (next : Query -> outcome R) : outcome R :=
  this ← (if Model_hasTenantContext (q_model this) then
            tenantId ← Model_getTenant (q_model this);
            mret (setQuery this (spread (getQuery this) [(tenantIdKey, tenantId)]))
          else mret this);
  next this.

Definition preUpdate (tenantIdKey : string) (R : Type) (this : Query)
    (next : Query -> outcome R) : outcome R :=
  this ← (if Model_hasTenantContext (q_model this) then
            tenantId ← Model_getTenant (q_model this);
            let this := setQuery this (spread (getQuery this) [(tenantIdKey, tenantId)]) in
            mret (Query_set this tenantIdKey tenantId)
          else mret this);
  next this.

Definition preSave (tenantIdKey : string) (R : Type) (this : Document)
    (next : Document -> outcome R) : outcome R :=
  let model := doc_constructor this in
  this ← (if Model_hasTenantContext model then
            tenantId ← Model_getTenant model;
            mret (Document_set this tenantIdKey tenantId)
          else mret this);
  next this.

Definition installMiddleWare (this : MongoTenant) : MongoTenant :=
  let tenantIdKey := getTenantIdKey this in
  let pre s name f := Schema_pre s name f in
  let s := schema this in
  let s := pre s "find" (QueryMiddleware (preFindOrCount tenantIdKey)) in
  let s := pre s "findOne" (QueryMiddleware (preFindOrCount tenantIdKey)) in
  let s := pre s "findOneAndRemove" (QueryMiddleware (preFindOrCount tenantIdKey)) in
  let s := pre s "count" (QueryMiddleware (preFindOrCount tenantIdKey)) in
  let s := pre s "countDocuments" (QueryMiddleware (preFindOrCount tenantIdKey)) in
  let s := pre s "findOneAndUpdate" (QueryMiddleware (preUpdate tenantIdKey)) in
  let s := pre s "update" (QueryMiddleware (preUpdate tenantIdKey)) in
  let s := pre s "updateMany" (QueryMiddleware (preUpdate tenantIdKey)) in
  let s := pre s "save" (DocumentMiddleware (preSave tenantIdKey)) in
  with_schema this s.

Definition apply (this : MongoTenant) : MongoTenant :=
  installMiddleWare (injectApi (compoundIndexes (extendSchema this))).

End MongoTenant.

Definition mongoTenantPlugin (schema : Schema) (options : MongoTenant.MongoTenantOptions)
    : MongoTenant.MongoTenant :=
  MongoTenant.apply (MongoTenant.constructor schema options).

(** ** The host: running hooks, storing and selecting documents *)

Module Host.

Definition Collection := list props.

(** Modelled from the spec: the hook registration API of the host (pre-hooks
    keyed by operation name, each receiving a continuation). The hooks
    registered for [name] run in registration order before [exec]. *)
Fixpoint run_query_pres (hooks : list (string * middleware)) (name : string)
    (R : Type) (q : Query) (exec : Query -> outcome R) : outcome R :=
  match hooks with
  | [] => exec q
  | (n, QueryMiddleware f) :: rest =>
      if String.eqb n name
      then f R q (fun q' => run_query_pres rest name R q' exec)
      else run_query_pres rest name R q exec
  | (_, DocumentMiddleware _) :: rest => run_query_pres rest name R q exec
  end.

Fixpoint run_document_pres (hooks : list (string * middleware)) (name : string)
    (R : Type) (d : Document) (exec : Document -> outcome R) : outcome R :=
  match hooks with
  | [] => exec d
  | (n, DocumentMiddleware f) :: rest =>
      if String.eqb n name
      then f R d (fun d' => run_document_pres rest name R d' exec)
      else run_document_pres rest name R d exec
  | (_, QueryMiddleware _) :: rest => run_document_pres rest name R d exec
  end.

(** Modelled from the spec: the unique constraints the host enforces for a
    schema, one per field declared unique and one per schema-level index
    marked unique, each as the list of fields it spans. *)
Definition unique_constraints (s : Schema) : list (list string) :=
  omap (fun p : string * props =>
          if truthy (get_prop "unique" p.2) then Some [p.1] else None) (paths s)
  ++ omap (fun i : props * props =>
             if truthy (get_prop "unique" i.2) then Some (keys i.1) else None) (_indexes s).

Definition collides (fields : list string) (d d' : props) : bool :=
  forallb (fun k => strict_eq (get_prop k d) (get_prop k d')) fields.

(** Modelled from the spec: storing a new document fails (duplicate key)
    when it agrees with a stored document on all fields of some unique
    constraint, and adds the document otherwise. *)
Definition insert (s : Schema) (c : Collection) (d : props) : option Collection :=
  if existsb (fun fields => existsb (collides fields d) c) (unique_constraints s)
  then None
  else Some (c ++ [d]).

(** [new cls(fields).save()]: the save hooks, then the insert. *)
Definition save (s : Schema) (cls : ModelClass) (fields : props) (c : Collection)
    : outcome (option Collection) :=
  run_document_pres (pres s) "save" _ (MkDocument cls fields)
    (fun d => Returned (insert s c (doc_fields d))).

(** The document [save] hands to the store. *)
Definition saved_document (s : Schema) (cls : ModelClass) (fields : props)
    : outcome props :=
  run_document_pres (pres s) "save" _ (MkDocument cls fields)
    (fun d => Returned (doc_fields d)).

Section Engine.

(** Modelled from the spec: the query engine of the host. [selects f d]
    tells whether the filter [f] selects the stored document [d]. *)
Variable selects : props -> props -> bool.

Definition exec_find (f : props) (c : Collection) : list props :=
  List.filter (selects f) c.

(** The stored documents the query operation [name], called on the class
    [cls] with the filter [f], works on once its hooks have run: [find]
    returns them, [findOne] the first of them, [count] and [countDocuments]
    their number. *)
Definition selected (s : Schema) (name : string) (cls : ModelClass) (f : props)
    (c : Collection) : outcome (list props) :=
  run_query_pres (pres s) name _ (MkQuery cls f [])
    (fun q => Returned (exec_find (getQuery q) c)).

End Engine.

End Host.

(** ** Models fetched through a tenant-aware connection *)

Module AwareDb.

(** Modelled from the spec: the connection handle of the host, "get model by
    name". The registry holds, per name, the model compiled under it and the
    value of its static [mongoTenant] ([None]: the model has no such static). *)
Abbreviation registry := (gmap string (Model * option MongoTenant.MongoTenant)).

(** What [awareDb.model(name)] produces: a model class (with the registry and
    the class counter as the call leaves them), the error of the host for a
    name nothing is registered under, or the [TypeError] of calling a static
    that is not a function. *)
Inductive fetched :=
  | Fetched (cls : ModelClass) (reg : registry) (n : nat)
  | MissingSchema
  | NotCallable.

Section Model.

Variable String_of : value -> string.

(** The arrow function [createTenantAwareDb] installs as [awareDb.model]; it
    closes over the plugin [self] and the tenant identifier. A compatible
    plugin of the other model is asked for the bound class through the static
    registered under its accessor name; its cache is the one that changes. *)
Definition model (self : MongoTenant.MongoTenant) (tenantId : value)
    (reg : registry) (name : string) (n : nat) : fetched :=
  match reg !! name with
  | None => MissingSchema
  | Some (unawareModel, otherPlugin) =>
      if negb (MongoTenant.isCompatibleTo self (MongoTenant.as_object <$> otherPlugin))
      then Fetched (Unbound unawareModel) reg n
      else
        match otherPlugin with
        | None => Fetched (Unbound unawareModel) reg n
        | Some other =>
            match lookup_prop (MongoTenant.getAccessorMethod other)
                              (statics (MongoTenant.schema other)) with
            | Some AccessorFunction =>
                let '(cls, other', n') :=
                  MongoTenant.accessor String_of other unawareModel tenantId n in
                Fetched cls (<[name := (unawareModel, Some other')]> reg) n'
            | _ => NotCallable
            end
        end
  end.

End Model.

End AwareDb.

(** ** Sample data *)

Module Sample.

Definition no_options : MongoTenant.MongoTenantOptions :=
  MongoTenant.MkOptions None None None None None.

(** A schema whose [email] path is declared [unique: true]. *)
Definition userSchema : Schema :=
  MkSchema [("email", [("type", VBuiltin "String"); ("unique", VBool true)])] [] [] [].

Definition plugin : MongoTenant.MongoTenant := mongoTenantPlugin userSchema no_options.

Definition User : Model :=
  MkModel "User" (BaseConnection "app") [("collectionName", Data (VString "users"))] None.

Definition User_t1 : BoundModel :=
  (MongoTenant.createTenantAwareModel "tenant" User (VString "t1") 0).1.
Definition User_t2 : BoundModel :=
  (MongoTenant.createTenantAwareModel "tenant" User (VString "t2") 1).1.

(** [String(v)]: exact on primitive values; an object without a [toString]
    of its own gives "[object Object]". *)
Definition String_of (v : value) : string :=
  match v with
  | VUndefined => "undefined"
  | VNull => "null"
  | VBool true => "true"
  | VBool false => "false"
  | VNumber n => pretty n
  | VString s => s
  | VBuiltin name => "function " +:+ name +:+ "() { [native code] }"
  | VRef _ => "[object Object]"
  end.

(** An engine whose filters select by equality of the fields they name. *)
Definition equal_fields (f d : props) : bool :=
  forallb (fun k => strict_eq (get_prop k d) (get_prop k f)) (keys f).

(** A unique index that already names the tenant field, after [email]. *)
Definition indexedSchema : Schema :=
  MkSchema []
    [([("email", VNumber 1); ("tenant", VNumber (-1))], [("unique", VBool true)]);
     ([("name", VNumber 1)], [("unique", VBool true); ("sparse", VBool true)])]
    [] [].

(** Two documents with the same [email], of the tenants "t1" and "t2". *)
Definition of_t1 : props := [("email", VString "a@example.org"); ("tenant", VString "t1")].
Definition of_t2 : props := [("email", VString "a@example.org"); ("tenant", VString "t2")].

(** A class written for a test of the hooks, with the two members as
    static properties. *)
Definition Harness : Model :=
  MkModel "Harness" (BaseConnection "app")
    [("hasTenantContext", Data (VBool true)); ("getTenant", Function (VString "t1"))] None.

End Sample.

(** ** Vocabulary of the statements *)

(** A property other than the one named [k]. *)
Definition other_than (k : string) (kv : string * value) : Prop := kv.1 ≠ k.

#[local] Instance other_than_dec k kv : Decision (other_than k kv).
Proof. unfold other_than. apply _. Defined.

(** The indexes [compoundIndexes] declares for the unique paths. *)
Definition path_indexes (key : string) (ps : list (string * props)) : list (props * props) :=
  _indexes (fold_left (MongoTenant.compound_path key) ps (MkSchema [] [] [] [])).

(** The hooks [installMiddleWare] registers for a tenant field [key]. *)
Definition tenant_hooks (key : string) : list (string * middleware) :=
  [("find", QueryMiddleware (MongoTenant.preFindOrCount key));
   ("findOne", QueryMiddleware (MongoTenant.preFindOrCount key));
   ("findOneAndRemove", QueryMiddleware (MongoTenant.preFindOrCount key));
   ("count", QueryMiddleware (MongoTenant.preFindOrCount key));
   ("countDocuments", QueryMiddleware (MongoTenant.preFindOrCount key));
   ("findOneAndUpdate", QueryMiddleware (MongoTenant.preUpdate key));
   ("update", QueryMiddleware (MongoTenant.preUpdate key));
   ("updateMany", QueryMiddleware (MongoTenant.preUpdate key));
   ("save", DocumentMiddleware (MongoTenant.preSave key))].

(** The hook hands a query, or a document, of the class [cls] on to [next]
    as it is. *)
Definition passes (cls : ModelClass) (mw : middleware) : Prop :=
  match mw with
  | QueryMiddleware f =>
      ∀ R (q : Query) (next : Query -> outcome R),
        q_model q = cls -> f R q next = next q
  | DocumentMiddleware f =>
      ∀ R (d : Document) (next : Document -> outcome R),
        doc_constructor d = cls -> f R d next = next d
  end.

(** No name of the key specification, nor the tenant field, is an array
    index. *)
Definition plain_names (key : string) (def : props) : Prop :=
  array_index key = None ∧ Forall (fun k => array_index k = None) (keys def).

(** Induction over a model and its discriminators. *)
Section ModelInduction.

Variable P : Model -> Prop.
Hypothesis step :
  ∀ name db ps ds,
    match ds with
    | Some l => Forall (fun kd : string * Model => P kd.2) l
    | None => True
    end ->
    P (MkModel name db ps ds).

Fixpoint Model_nested_ind (m : Model) : P m :=
  match m with
  | MkModel name db ps ds =>
      step name db ps ds
        match ds with
        | None => I
        | Some l =>
            (fix all (l : list (string * Model)) : Forall (fun kd => P kd.2) l :=
               match l with
               | [] => List.Forall_nil _
               | kd :: r =>
                   List.Forall_cons _ _ _
                     (match kd as kd0 return P kd0.2 with
                      | (_, d) => Model_nested_ind d
                      end)
                     (all r)
               end) l
        end
  end.

End ModelInduction.

(** A path or index declared with [unique: true] and without
    [preserveUniqueKey: true]. *)
Definition declares_unique (o : props) : bool :=
  MongoTenant.is_true o "unique" && negb (MongoTenant.is_true o "preserveUniqueKey").

(** The operations [installMiddleWare] names. *)
Definition hooked_operations : list string :=
  ["find"; "findOne"; "findOneAndRemove"; "count"; "countDocuments";
   "findOneAndUpdate"; "update"; "updateMany"; "save"].

(** The own property of the model cache for a model name and a tenant
    string. *)
Definition cached (P : MongoTenant.MongoTenant) (name str : string) : option BoundModel :=
  MongoTenant._modelCache P !! name ≫= (.!! str).

(** Neither the name of the model nor the tenant string names a member of
    [Object.prototype]. *)
Definition ordinary (name str : string) : Prop :=
  on_prototype name = false ∧ on_prototype str = false.

(** The class a discriminator is bound to. *)
Definition bound_like (key : string) (tenant : value) (base : string * Model)
    (bound : string * BoundModel) : Prop :=
  bound.1 = base.1 ∧ BaseModel bound.2 = base.2
  ∧ tenantId_of bound.2 = tenant ∧ tenantIdKey_of bound.2 = key.

(** ** More sample data *)

Module Fixture.

(** A model with a discriminator. *)
Definition Video : Model := MkModel "Video" (BaseConnection "app") [] None.
Definition Post : Model :=
  MkModel "Post" (BaseConnection "app")
    [("name", Data (VString "model")); ("collectionName", Data (VString "posts"));
     ("findPublished", Function VUndefined)]
    (Some [("Video", Video)]).

(** Another model named like [Sample.User], on another connection. *)
Definition User_elsewhere : Model := MkModel "User" (BaseConnection "reports") [] None.

(** Models of one connection: [User] with the sample plugin, [Log] without a
    plugin, [Order] with a plugin whose tenant field is [org]. *)
Definition Log : Model := MkModel "Log" (BaseConnection "app") [] None.
Definition Order : Model := MkModel "Order" (BaseConnection "app") [] None.
Definition orgPlugin : MongoTenant.MongoTenant :=
  mongoTenantPlugin (MkSchema [] [] [] [])
    (MongoTenant.MkOptions None (Some "org") None None None).
Definition models : AwareDb.registry :=
  {[ "User" := (Sample.User, Some Sample.plugin);
     "Log" := (Log, None);
     "Order" := (Order, Some orgPlugin) ]}.

End Fixture.

(** * Properties *)

(** ** Property lists *)

Section PropertyLists.

Context {A : Type}.
Implicit Types (k : string) (v : A) (ps : list (string * A)).

Lemma lookup_set_prop_eq k v ps : lookup_prop k (set_prop k v ps) = Some v.
Proof.
  induction ps as [|[k' v'] r IH]; simpl.
  - by rewrite String.eqb_refl.
  - destruct (String.eqb k' k) eqn:E; simpl; rewrite E; auto.
Qed.

Lemma lookup_set_prop_ne k k' v ps :
  k ≠ k' -> lookup_prop k' (set_prop k v ps) = lookup_prop k' ps.
Proof.
  intros Hne. induction ps as [|[k0 v0] r IH]; simpl.
  - destruct (String.eqb k k') eqn:E; [apply String.eqb_eq in E; congruence | done].
  - destruct (String.eqb k0 k) eqn:E; simpl.
    + apply String.eqb_eq in E; subst k0.
      destruct (String.eqb k k') eqn:E'; [apply String.eqb_eq in E'; congruence | done].
    + by rewrite IH.
Qed.

Lemma set_prop_fresh k v ps :
  lookup_prop k ps = None -> set_prop k v ps = ps ++ [(k, v)].
Proof.
  induction ps as [|[k' v'] r IH]; simpl; [done|].
  destruct (String.eqb k' k); [done|]. intros H. by rewrite IH.
Qed.

Lemma set_prop_same k v ps : lookup_prop k ps = Some v -> set_prop k v ps = ps.
Proof.
  induction ps as [|[k' v'] r IH]; simpl; [done|].
  destruct (String.eqb k' k); [by intros [= ->] | intros H; by rewrite IH].
Qed.

Lemma lookup_prop_None k ps : lookup_prop k ps = None <-> k ∉ ps.*1.
Proof.
  induction ps as [|[k' v'] r IH]; simpl.
  - split; [intros _; apply not_elem_of_nil | done].
  - destruct (String.eqb k' k) eqn:E.
    + apply String.eqb_eq in E; subst. split; [done|].
      intros H. exfalso. apply H. left.
    + apply String.eqb_neq in E. rewrite IH, not_elem_of_cons. simpl. intuition congruence.
Qed.

Lemma lookup_prop_head k v ps : lookup_prop k ((k, v) :: ps) = Some v.
Proof. simpl. by rewrite String.eqb_refl. Qed.

Lemma lookup_prop_app k (a b : list (string * A)) :
  lookup_prop k (a ++ b) =
    match lookup_prop k a with Some v => Some v | None => lookup_prop k b end.
Proof.
  induction a as [|[k' v'] r IH]; simpl; [done|]. by destruct (String.eqb k' k).
Qed.

Lemma lookup_prop_filter_name (Q : string -> Prop) `{!∀ x, Decision (Q x)} k ps :
  lookup_prop k (filter (fun kv : string * A => Q (fst kv)) ps)
  = if decide (Q k) then lookup_prop k ps else None.
Proof.
  induction ps as [|[k' v] r IH]; [by destruct (decide _)|].
  rewrite filter_cons. cbn [fst].
  destruct (decide (Q k')) as [Hq|Hq]; cbn [lookup_prop];
    destruct (String.eqb k' k) eqn:E; try done.
  - apply String.eqb_eq in E. subst k'. by destruct (decide (Q k)).
  - apply String.eqb_eq in E. subst k'. rewrite IH. by destruct (decide (Q k)).
Qed.

End PropertyLists.

(** Without array indices among the names, enumeration follows creation. *)
Lemma enumerate_plain (ps : props) :
  Forall (fun k => array_index k = None) (keys ps) -> enumerate ps = keys ps.
Proof.
  unfold enumerate. generalize (keys ps) as l. intros l Hl.
  assert (foldr (fun k acc => match array_index k with
                              | Some i => insert_index i k acc
                              | None => acc
                              end) [] l = []) as ->.
  { induction Hl as [|k l Hk Hl IH]; [done|]. simpl. by rewrite Hk. }
  simpl. induction Hl as [|k l Hk Hl IH]; [done|].
  rewrite filter_cons_True by done. by rewrite IH.
Qed.

Lemma enumerate_single k v : enumerate [(k, v)] = [k].
Proof.
  unfold enumerate. simpl. destruct (array_index k) eqn:E; simpl.
  - rewrite filter_cons_False, filter_nil; [done|]. by rewrite E.
  - rewrite filter_cons_True, filter_nil; done.
Qed.

Lemma spread_single (a : props) k v : spread a [(k, v)] = set_prop k v a.
Proof.
  unfold spread. rewrite enumerate_single. unfold get_prop. simpl.
  by rewrite String.eqb_refl.
Qed.

(** ** The order of enumeration *)
Lemma insert_index_perm i k l : insert_index i k l ≡ₚ (i, k) :: l.
Proof.
  induction l as [|[j k'] r IH]; simpl; [done|].
  destruct (i <=? j)%N; [done|]. rewrite IH. apply Permutation_swap.
Qed.

Lemma keys_set_prop k v (ps : props) :
  keys (set_prop k v ps) = if decide (k ∈ keys ps) then keys ps else keys ps ++ [k].
Proof.
  unfold keys. induction ps as [|[k' v'] r IH].
  - rewrite decide_False; [done | apply not_elem_of_nil].
  - cbn [set_prop]. destruct (String.eqb k' k) eqn:E.
    + apply String.eqb_eq in E. subst k'.
      rewrite decide_True; [reflexivity | rewrite fmap_cons; left].
    + apply String.eqb_neq in E. rewrite !fmap_cons, IH. cbn [fst].
      destruct (decide (k ∈ r.*1)) as [Hin|Hin].
      * rewrite decide_True; [done | by right].
      * rewrite decide_False; [done|]. rewrite not_elem_of_cons. split; [congruence | done].
Qed.

Lemma filter_absent_from_longer (f : string) (A : list string) :
  ∀ l : list string,
    f ∉ l -> filter (fun x => x ∉ A ++ [f]) l = filter (fun x => x ∉ A) l.
Proof.
  induction l as [|x l IH]; intros Hf; [done|].
  apply not_elem_of_cons in Hf as [Hne Hf]. rewrite !filter_cons, IH by done.
  destruct (decide (x ∉ A)) as [Hx|Hx].
  - rewrite decide_True; [done|]. rewrite elem_of_app, list_elem_of_singleton.
    intros [?|?]; [done | congruence].
  - rewrite decide_False; [done|]. intros H. apply Hx. intros Hin. apply H.
    apply elem_of_app. by left.
Qed.

Lemma fold_set_prop_keys (g : string -> value) :
  ∀ (ks : list string) (acc : props),
    NoDup ks ->
    keys (fold_left (fun acc f => set_prop f (g f) acc) ks acc)
    = keys acc ++ filter (fun f => f ∉ keys acc) ks.
Proof.
  induction ks as [|f ks IH]; intros acc Hnd; cbn [fold_left].
  - by rewrite filter_nil, app_nil_r.
  - apply NoDup_cons in Hnd as [Hf Hnd]. rewrite IH by done. rewrite keys_set_prop.
    rewrite filter_cons. destruct (decide (f ∈ keys acc)) as [Hin|Hin].
    + by rewrite decide_False by (intros H; by apply H).
    + rewrite decide_True by done. rewrite <- (assoc_L (++)). cbn [app]. do 2 f_equal.
      by apply filter_absent_from_longer.
Qed.

Lemma fold_set_prop_lookup (g : string -> value) f :
  ∀ (ks : list string) (acc : props),
    lookup_prop f (fold_left (fun acc f => set_prop f (g f) acc) ks acc)
    = if decide (f ∈ ks) then Some (g f) else lookup_prop f acc.
Proof.
  induction ks as [|f0 ks IH]; intros acc; cbn [fold_left].
  - rewrite decide_False; [done | apply not_elem_of_nil].
  - rewrite IH. destruct (decide (f ∈ ks)) as [Hin|Hin].
    + rewrite decide_True; [done | by right].
    + destruct (decide (f0 = f)) as [->|Hne].
      * rewrite decide_True by left. apply lookup_set_prop_eq.
      * rewrite decide_False by (rewrite not_elem_of_cons; split; [congruence | done]).
        by apply lookup_set_prop_ne.
Qed.

Lemma enumerate_indices_perm (l : list string) :
  (foldr (fun k acc => match array_index k with
                       | Some i => insert_index i k acc
                       | None => acc
                       end) [] l).*2
  ≡ₚ filter (fun k => array_index k ≠ None) l.
Proof.
  induction l as [|k l IH]; simpl; [done|].
  rewrite filter_cons. destruct (array_index k) as [i|] eqn:E.
  - rewrite decide_True by done. rewrite insert_index_perm. simpl. by rewrite IH.
  - rewrite decide_False by (intros H; by apply H). exact IH.
Qed.

Lemma elem_of_enumerate (ps : props) k : k ∈ enumerate ps <-> k ∈ keys ps.
Proof.
  unfold enumerate. rewrite elem_of_app, enumerate_indices_perm, !list_elem_of_filter.
  split.
  - by intros [[_ H]|[_ H]].
  - intros H. destruct (array_index k) eqn:E; [left | right]; (split; [congruence | done]).
Qed.

Lemma NoDup_enumerate (ps : props) : NoDup (keys ps) -> NoDup (enumerate ps).
Proof.
  intros Hnd. unfold enumerate. apply NoDup_app. split; [|split].
  - rewrite enumerate_indices_perm. by apply NoDup_filter.
  - intros k Hk. rewrite enumerate_indices_perm in Hk.
    apply list_elem_of_filter in Hk as [Hk _].
    intros [Hk' _]%list_elem_of_filter. congruence.
  - by apply NoDup_filter.
Qed.

(** The key specification [tenantAwareIndex] builds, for any names: its
    fields in creation order, and their values. *)
Lemma tenantAwareIndex_fields key (def : props) :
  NoDup (keys def) ->
  keys (MongoTenant.tenantAwareIndex key def)
  = key :: filter (fun f => f ≠ key) (enumerate def)
  ∧ get_prop key (MongoTenant.tenantAwareIndex key def)
    = default (VNumber 1) (lookup_prop key def)
  ∧ ∀ f, f ≠ key ->
         lookup_prop f (MongoTenant.tenantAwareIndex key def) = lookup_prop f def.
Proof.
  intros Hnd. unfold MongoTenant.tenantAwareIndex.
  assert (∀ f, f ∈ keys def -> lookup_prop f def = Some (get_prop f def)) as Hget.
  { intros f Hf. unfold get_prop. destruct (lookup_prop f def) eqn:E; [done|].
    by apply lookup_prop_None in E. }
  split; [|split].
  - rewrite fold_set_prop_keys by (by apply NoDup_enumerate). cbn [keys fmap list_fmap fst app].
    f_equal. apply list_filter_iff. intros f. rewrite list_elem_of_singleton. done.
  - unfold get_prop at 1. rewrite fold_set_prop_lookup.
    destruct (decide (key ∈ enumerate def)) as [Hin|Hin].
    + apply elem_of_enumerate in Hin. by rewrite (Hget key Hin).
    + rewrite elem_of_enumerate in Hin. apply lookup_prop_None in Hin. rewrite Hin.
      by rewrite lookup_prop_head.
  - intros f Hne. rewrite fold_set_prop_lookup.
    destruct (decide (f ∈ enumerate def)) as [Hin|Hin].
    + apply elem_of_enumerate in Hin. by rewrite (Hget f Hin).
    + rewrite elem_of_enumerate in Hin. apply lookup_prop_None in Hin. rewrite Hin.
      cbn [lookup_prop]. destruct (String.eqb key f) eqn:E; [|done].
      apply String.eqb_eq in E. congruence.
Qed.

(** ** Compatibility of plugin instances *)

(** C7. [isCompatibleTo] answers true exactly when its argument is present,
    has functions for both [getAccessorMethod] and [getTenantIdKey], and its
    [getTenantIdKey()] is this plugin's tenant field name; so for another
    plugin instance it answers true exactly when the two tenant field names
    are the same. *)
Theorem isCompatibleTo_iff_same_tenant_field :
  ∀ (this : MongoTenant.MongoTenant),
    (∀ plugin : option MongoTenant.plugin_object,
       MongoTenant.isCompatibleTo this plugin = true
       <-> ∃ p accessor,
             plugin = Some p
             ∧ MongoTenant.member_getAccessorMethod p = MongoTenant.Method accessor
             ∧ MongoTenant.member_getTenantIdKey p
               = MongoTenant.Method (VString (MongoTenant.getTenantIdKey this)))
    ∧ (∀ other : MongoTenant.MongoTenant,
         MongoTenant.isCompatibleTo this (Some (MongoTenant.as_object other)) = true
         <-> MongoTenant.getTenantIdKey this = MongoTenant.getTenantIdKey other).
Proof.
  intros this.
  assert (∀ plugin : option MongoTenant.plugin_object,
            MongoTenant.isCompatibleTo this plugin = true
            <-> ∃ p accessor,
                  plugin = Some p
                  ∧ MongoTenant.member_getAccessorMethod p = MongoTenant.Method accessor
                  ∧ MongoTenant.member_getTenantIdKey p
                    = MongoTenant.Method (VString (MongoTenant.getTenantIdKey this))) as Hiff.
  { intros [[ma mk]|]; simpl.
    - split.
      + intros H. apply andb_prop in H as [H Heq]. apply andb_prop in H as [Ha Hk].
        destruct ma as [a|]; [|done]. destruct mk as [r|]; [|done].
        apply bool_decide_eq_true in Heq. simpl in Heq. subst r.
        eexists _, a. done.
      + intros (p & a & [= <-] & Ha & Hk). simpl in *. subst.
        simpl. unfold strict_eq. by rewrite bool_decide_eq_true_2.
    - split; [done|]. by intros (? & ? & ? & _). }
  split; [exact Hiff|].
  intros other. rewrite Hiff. split.
  - intros (p & a & [= <-] & _ & Hk). simpl in Hk. congruence.
  - intros Heq. eexists _, _. split; [done|]. simpl. by rewrite Heq.
Qed.

(** ** The class the factory creates *)

(** The factory creates at least one class, and the class it returns is the
    first one created: it carries the stamp the counter had at the call. Its
    body closes over the tenant, the tenant field and the tenant-aware
    connection; its own static properties are copies of those of the base
    model. *)
Lemma createTenantAwareModel_creates key tenant (B : Model) :
  ∀ n m n',
    MongoTenant.createTenantAwareModel key B tenant n = (m, n') ->
    n < n' ∧ stamp m = n ∧ BaseModel m = B
    ∧ tenantId_of m = tenant ∧ tenantIdKey_of m = key
    ∧ db_of m = TenantAwareDb (model_db B) tenant
    ∧ bound_inherited m = MongoTenant.inherit_statics (ownProperties B).
Proof.
  induction B as [name db ps ds IH] using Model_nested_ind.
  intros n m n'. cbn [MongoTenant.createTenantAwareModel].
  destruct ds as [l|]; [|by intros [= <- <-]; repeat split; lia].
  match goal with
  | |- (let '(_, _) := ?go l (S n) in _) = _ -> _ =>
      assert (∀ j : nat, (j <= snd (go l j))%nat) as Hmono
  end.
  { clear -IH. induction l as [|[k d] r IHr]; intros k0; [simpl; lia|].
    apply Forall_cons in IH as [Hd Hr]. simpl in Hd.
    cbn -[MongoTenant.createTenantAwareModel].
    destruct (MongoTenant.createTenantAwareModel key d tenant k0) as [m1 n1] eqn:E1.
    apply Hd in E1 as (Hlt & _).
    specialize (IHr Hr n1).
    match goal with
    | |- (_ <= snd (let '(_, _) := ?x in _))%nat => destruct x as [ms n2]
    end.
    simpl in *. lia. }
  specialize (Hmono (S n)).
  match goal with
  | |- (let '(_, _) := ?x in _) = _ -> _ => destruct x as [l' n2]
  end.
  simpl in Hmono. intros [= <- <-]. repeat split. lia.
Qed.

Lemma no_static_member name : (name, Static) ∉ class_body.
Proof.
  unfold class_body. intros Hin.
  repeat (apply elem_of_cons in Hin as [[=]|Hin]). by apply elem_of_nil in Hin.
Qed.

Lemma inherit_statics_lookup k (ps : list (string * own_property)) :
  lookup_prop k (MongoTenant.inherit_statics ps)
  = if bool_decide (k ∈ ["length"; "name"; "prototype"; "arguments"; "caller"])
    then None else lookup_prop k ps.
Proof.
  unfold MongoTenant.inherit_statics, MongoTenant.class_own_properties.
  etrans;
    [exact (lookup_prop_filter_name
              (fun x => (x ∉ ["length"; "name"; "prototype"]) ∧ (x ∉ ["arguments"; "caller"]))
              k ps)|].
  destruct (decide _) as [[H1 H2]|Hn]; destruct (bool_decide _) eqn:Eb; try done.
  - apply bool_decide_eq_true in Eb. exfalso.
    rewrite !elem_of_cons, elem_of_nil in Eb.
    destruct Eb as [->|[->|[->|[->|[->|[]]]]]];
      first [apply H1; by repeat constructor | apply H2; by repeat constructor].
  - apply bool_decide_eq_false in Eb. exfalso. apply Hn.
    split; intros Hin; apply Eb; rewrite !elem_of_cons, elem_of_nil in *; tauto.
Qed.

(** A name the base model has no own property for is looked up, on a class
    the factory creates, on the host's [Model] class: the class body
    declares no static member, and the class has copies of own properties
    of the base model only. *)
Lemma class_lookup_created key tenant (B : Model) n m n' name :
  MongoTenant.createTenantAwareModel key B tenant n = (m, n') ->
  lookup_prop name (ownProperties B) = None ->
  class_lookup (Bound m) name = OfHost name.
Proof.
  intros Hm Hname.
  apply createTenantAwareModel_creates in Hm as (_ & _ & Hb & _ & _ & _ & Hi).
  unfold class_lookup.
  rewrite bool_decide_eq_false_2 by apply no_static_member.
  rewrite Hi, inherit_statics_lookup, Hb, Hname. by destruct (bool_decide _).
Qed.

Lemma created_class_without_tenant_context key tenant (B : Model) n m n' :
  MongoTenant.createTenantAwareModel key B tenant n = (m, n') ->
  lookup_prop "hasTenantContext" (ownProperties B) = None ->
  Model_hasTenantContext (Bound m) = false.
Proof.
  intros Hm Hname. unfold Model_hasTenantContext.
  by rewrite (class_lookup_created _ _ _ _ _ _ _ Hm Hname).
Qed.

Lemma call_on_created_class key tenant (B : Model) n m n' name args :
  MongoTenant.createTenantAwareModel key B tenant n = (m, n') ->
  lookup_prop name (ownProperties B) = None ->
  name ∈ host_operations ->
  call_on_class (Bound m) name args = RunsHost name args.
Proof.
  intros Hm Hname Hop. unfold call_on_class.
  rewrite (class_lookup_created _ _ _ _ _ _ _ Hm Hname).
  by rewrite bool_decide_eq_true_2.
Qed.

(** ** Middleware *)

Lemma preFindOrCount_unscoped key R (q : Query) (next : Query -> outcome R) :
  Model_hasTenantContext (q_model q) = false ->
  MongoTenant.preFindOrCount key R q next = next q.
Proof. intros H. unfold MongoTenant.preFindOrCount. by rewrite H. Qed.

Lemma preUpdate_unscoped key R (q : Query) (next : Query -> outcome R) :
  Model_hasTenantContext (q_model q) = false ->
  MongoTenant.preUpdate key R q next = next q.
Proof. intros H. unfold MongoTenant.preUpdate. by rewrite H. Qed.

Lemma preSave_unscoped key R (d : Document) (next : Document -> outcome R) :
  Model_hasTenantContext (doc_constructor d) = false ->
  MongoTenant.preSave key R d next = next d.
Proof. intros H. unfold MongoTenant.preSave. by rewrite H. Qed.

Lemma installMiddleWare_pres (this : MongoTenant.MongoTenant) :
  pres (MongoTenant.schema (MongoTenant.installMiddleWare this))
  = pres (MongoTenant.schema this) ++ tenant_hooks (MongoTenant.getTenantIdKey this).
Proof.
  destruct this as [[ps idx st hooks] o c].
  unfold MongoTenant.installMiddleWare, Schema_pre, tenant_hooks.
  cbn [MongoTenant.schema MongoTenant.with_schema pres paths _indexes statics].
  by rewrite <- !(assoc_L (++)).
Qed.

Lemma installMiddleWare_options (this : MongoTenant.MongoTenant) :
  MongoTenant.options (MongoTenant.installMiddleWare this) = MongoTenant.options this.
Proof. reflexivity. Qed.

Lemma tenant_hooks_pass key cls :
  Model_hasTenantContext cls = false -> Forall (fun h => passes cls h.2) (tenant_hooks key).
Proof.
  intros Hc. unfold tenant_hooks.
  repeat (apply Forall_cons; split;
          [first [intros R q next <-; by apply preFindOrCount_unscoped
                 |intros R q next <-; by apply preUpdate_unscoped
                 |intros R d next <-; by apply preSave_unscoped]|]).
  apply Forall_nil_2.
Qed.

Lemma run_query_pres_passes hooks cls name R (q : Query) (exec : Query -> outcome R) :
  Forall (fun h => passes cls h.2) hooks -> q_model q = cls ->
  Host.run_query_pres hooks name R q exec = exec q.
Proof.
  intros Hall Hq. induction Hall as [|[n [f|f]] rest Hf Hrest IH]; simpl; [done| |done].
  destruct (String.eqb n name); [|done]. simpl in Hf. rewrite Hf by done. exact IH.
Qed.

Lemma run_document_pres_passes hooks cls name R (d : Document) (exec : Document -> outcome R) :
  Forall (fun h => passes cls h.2) hooks -> doc_constructor d = cls ->
  Host.run_document_pres hooks name R d exec = exec d.
Proof.
  intros Hall Hd. induction Hall as [|[n [f|f]] rest Hf Hrest IH]; simpl; [done|done|].
  destruct (String.eqb n name); [|done]. simpl in Hf. rewrite Hf by done. exact IH.
Qed.

(** ** Setting up a schema *)

Lemma compound_paths_fold key ps :
  ∀ s, fold_left (MongoTenant.compound_path key) ps s
       = MkSchema (paths s) (_indexes s ++ path_indexes key ps) (statics s) (pres s).
Proof.
  unfold path_indexes.
  induction ps as [|[f o] r IH]; intros s.
  - simpl. rewrite app_nil_r. by destruct s.
  - cbn [fold_left]. rewrite IH.
    rewrite (IH (MongoTenant.compound_path key (MkSchema [] [] [] []) (f, o))).
    unfold MongoTenant.compound_path.
    destruct (negb _ || _); simpl; [done|]. by rewrite <- (assoc_L (++)).
Qed.

Lemma compoundIndexes_indexes (this : MongoTenant.MongoTenant) :
  MongoTenant.isEnabled this = true ->
  let s := MongoTenant.schema this in
  let key := MongoTenant.getTenantIdKey this in
  _indexes (MongoTenant.schema (MongoTenant.compoundIndexes this))
  = (MongoTenant.rewrite_index key <$> _indexes s) ++ path_indexes key (paths s).
Proof.
  intros He. unfold MongoTenant.compoundIndexes. rewrite He. simpl.
  by rewrite compound_paths_fold.
Qed.

(** The options the paths were declared with are left as they are: a path
    declared unique stays unique on its own. *)
Lemma compoundIndexes_paths (this : MongoTenant.MongoTenant) :
  paths (MongoTenant.schema (MongoTenant.compoundIndexes this))
  = paths (MongoTenant.schema this).
Proof.
  unfold MongoTenant.compoundIndexes.
  destruct (negb _); [done|]. simpl. by rewrite compound_paths_fold.
Qed.

Lemma extendSchema_keeps P :
  MongoTenant.options (MongoTenant.extendSchema P) = MongoTenant.options P
  ∧ pres (MongoTenant.schema (MongoTenant.extendSchema P)) = pres (MongoTenant.schema P).
Proof. unfold MongoTenant.extendSchema. by destruct (negb _). Qed.

Lemma compoundIndexes_keeps P :
  MongoTenant.options (MongoTenant.compoundIndexes P) = MongoTenant.options P
  ∧ pres (MongoTenant.schema (MongoTenant.compoundIndexes P)) = pres (MongoTenant.schema P).
Proof.
  unfold MongoTenant.compoundIndexes. destruct (negb _); [done|].
  simpl. by rewrite compound_paths_fold.
Qed.

Lemma plugin_tenant_key s o :
  MongoTenant.getTenantIdKey (mongoTenantPlugin s o)
  = default "tenant" (MongoTenant.opt_tenantIdKey o).
Proof.
  unfold mongoTenantPlugin, MongoTenant.apply, MongoTenant.getTenantIdKey.
  rewrite installMiddleWare_options.
  cbn [MongoTenant.injectApi MongoTenant.options MongoTenant.with_schema].
  destruct (compoundIndexes_keeps (MongoTenant.extendSchema (MongoTenant.constructor s o)))
    as [-> _].
  destruct (extendSchema_keeps (MongoTenant.constructor s o)) as [-> _].
  reflexivity.
Qed.

Lemma plugin_pres paths0 indexes0 statics0 o :
  let P := mongoTenantPlugin (MkSchema paths0 indexes0 statics0 []) o in
  pres (MongoTenant.schema P) = tenant_hooks (MongoTenant.getTenantIdKey P).
Proof.
  intros P. unfold P. rewrite plugin_tenant_key.
  unfold mongoTenantPlugin, MongoTenant.apply.
  set (P0 := MongoTenant.constructor _ o).
  rewrite installMiddleWare_pres.
  unfold MongoTenant.getTenantIdKey, MongoTenant.injectApi.
  cbn [pres MongoTenant.schema MongoTenant.with_schema Schema_static MongoTenant.options].
  destruct (compoundIndexes_keeps (MongoTenant.extendSchema P0)) as [-> ->].
  destruct (extendSchema_keeps P0) as [-> ->].
  reflexivity.
Qed.

Lemma extendSchema_rest P :
  statics (MongoTenant.schema (MongoTenant.extendSchema P)) = statics (MongoTenant.schema P)
  ∧ _indexes (MongoTenant.schema (MongoTenant.extendSchema P)) = _indexes (MongoTenant.schema P)
  ∧ MongoTenant._modelCache (MongoTenant.extendSchema P) = MongoTenant._modelCache P.
Proof. unfold MongoTenant.extendSchema. by destruct (negb _). Qed.

Lemma compoundIndexes_rest P :
  statics (MongoTenant.schema (MongoTenant.compoundIndexes P)) = statics (MongoTenant.schema P)
  ∧ MongoTenant._modelCache (MongoTenant.compoundIndexes P) = MongoTenant._modelCache P.
Proof.
  unfold MongoTenant.compoundIndexes. destruct (negb _); [done|].
  simpl. by rewrite compound_paths_fold.
Qed.

Lemma installMiddleWare_rest (this : MongoTenant.MongoTenant) :
  paths (MongoTenant.schema (MongoTenant.installMiddleWare this)) = paths (MongoTenant.schema this)
  ∧ _indexes (MongoTenant.schema (MongoTenant.installMiddleWare this))
    = _indexes (MongoTenant.schema this)
  ∧ statics (MongoTenant.schema (MongoTenant.installMiddleWare this))
    = statics (MongoTenant.schema this)
  ∧ MongoTenant._modelCache (MongoTenant.installMiddleWare this) = MongoTenant._modelCache this.
Proof. by destruct this as [[ps idx st hooks] o c]. Qed.

(** The parts of the plugin and its schema after [apply], in terms of the
    schema after [extendSchema]. *)
Lemma plugin_parts s o :
  let P := mongoTenantPlugin s o in
  let P1 := MongoTenant.extendSchema (MongoTenant.constructor s o) in
  MongoTenant.options P = MongoTenant.options (MongoTenant.constructor s o)
  ∧ MongoTenant._modelCache P = ∅
  ∧ paths (MongoTenant.schema P) = paths (MongoTenant.schema P1)
  ∧ _indexes (MongoTenant.schema P)
    = _indexes (MongoTenant.schema (MongoTenant.compoundIndexes P1))
  ∧ statics (MongoTenant.schema P)
    = set_prop "mongoTenant" PluginReference
        (set_prop (MongoTenant.getAccessorMethod P) AccessorFunction (statics s))
  ∧ pres (MongoTenant.schema P) = pres s ++ tenant_hooks (MongoTenant.getTenantIdKey P).
Proof.
  intros P P1. unfold P, mongoTenantPlugin, MongoTenant.apply. fold P1.
  set (P2 := MongoTenant.compoundIndexes P1).
  set (P3 := MongoTenant.injectApi P2).
  destruct (installMiddleWare_rest P3) as (Hp & Hi & Hs & Hc).
  destruct (compoundIndexes_keeps P1) as [Ho2 Hh2].
  destruct (compoundIndexes_rest P1) as [Hs2 Hc2].
  destruct (extendSchema_keeps (MongoTenant.constructor s o)) as [Ho1 Hh1].
  destruct (extendSchema_rest (MongoTenant.constructor s o)) as (Hs1 & _ & Hc1).
  fold P1 in Ho1, Hh1, Hs1, Hc1. fold P2 in Ho2, Hh2, Hs2, Hc2.
  assert (MongoTenant.options P3 = MongoTenant.options (MongoTenant.constructor s o)) as Ho3.
  { unfold P3, MongoTenant.injectApi. simpl. by rewrite Ho2, Ho1. }
  split; [by rewrite installMiddleWare_options|].
  split; [rewrite Hc; unfold P3, MongoTenant.injectApi; simpl; by rewrite Hc2, Hc1|].
  split; [rewrite Hp; unfold P3, MongoTenant.injectApi; simpl;
          by apply compoundIndexes_paths|].
  split; [rewrite Hi; by unfold P3, MongoTenant.injectApi|].
  split.
  - rewrite Hs. unfold MongoTenant.getAccessorMethod.
    rewrite installMiddleWare_options, Ho3.
    unfold P3, MongoTenant.injectApi, Schema_static, MongoTenant.getAccessorMethod.
    cbn [statics MongoTenant.schema MongoTenant.with_schema].
    by rewrite Hs2, Hs1, Ho2, Ho1.
  - rewrite installMiddleWare_pres. unfold MongoTenant.getTenantIdKey.
    rewrite installMiddleWare_options.
    unfold P3, MongoTenant.injectApi.
    cbn [pres MongoTenant.schema MongoTenant.with_schema Schema_static MongoTenant.options].
    by rewrite Hh2, Hh1.
Qed.

(** ** Operations called on a bound class *)

(** C3. [aggregate] is declared in the class body as a method of the objects
    the class constructs, not as a static member. A call of [aggregate] on a
    class the factory has created (the base model having no own property of
    that name) therefore runs the [aggregate] of the host, which receives
    the arguments of the call as the caller gave them: no pipeline when none
    was given, and the caller's pipeline with its first stage untouched
    otherwise. Nothing adds the tenant. *)
Theorem aggregate_on_a_bound_class_is_the_hosts :
  ∀ (key : string) (tenant : value) (B : Model) (n n' : nat) (m : BoundModel)
    (args : list argument),
    MongoTenant.createTenantAwareModel key B tenant n = (m, n') ->
    lookup_prop "aggregate" (ownProperties B) = None ->
    lookup_prop "aggregate" class_body = Some PrototypeMethod
    ∧ call_on_class (Bound m) "aggregate" args = RunsHost "aggregate" args
    ∧ call_on_class (Bound m) "aggregate" [] = RunsHost "aggregate" [].
Proof.
  intros key tenant B n n' m args Hm Hname.
  split; [reflexivity|].
  split; apply (call_on_created_class _ _ _ _ _ _ _ _ Hm Hname); compute_done.
Qed.

(** C4. [deleteOne], [deleteMany] and [remove] are declared in the class body
    as methods of the objects the class constructs. A call of one of them on
    a class the factory has created (the base model having no own property
    of that name) runs the operation of the host with the arguments of the
    call as they are: without a filter when the caller gave none, and with
    the caller's filter, tenant field included, as the caller wrote it. The
    plugin registers no hook for these operations, so on a schema that had
    no hooks of its own the query the host builds runs with the filter it
    was given. *)
Theorem delete_operations_on_a_bound_class_are_the_hosts :
  ∀ (paths0 : list (string * props)) (indexes0 : list (props * props))
    (statics0 : list (string * static_member))
    (options : MongoTenant.MongoTenantOptions)
    (tenant : value) (B : Model) (n n' : nat) (m : BoundModel)
    (name : string) (args : list argument),
    let P := mongoTenantPlugin (MkSchema paths0 indexes0 statics0 []) options in
    MongoTenant.createTenantAwareModel (MongoTenant.getTenantIdKey P) B tenant n = (m, n') ->
    name ∈ ["deleteOne"; "deleteMany"; "remove"] ->
    lookup_prop name (ownProperties B) = None ->
    lookup_prop name class_body = Some PrototypeMethod
    ∧ call_on_class (Bound m) name args = RunsHost name args
    ∧ call_on_class (Bound m) name [] = RunsHost name []
    ∧ ∀ R (q : Query) (exec : Query -> outcome R),
        Host.run_query_pres (pres (MongoTenant.schema P)) name R q exec = exec q.
Proof.
  intros paths0 indexes0 statics0 options tenant B n n' m name args P Hm Hin Hname.
  assert (lookup_prop name class_body = Some PrototypeMethod ∧ name ∈ host_operations
          ∧ ∀ R (q : Query) (exec : Query -> outcome R),
              Host.run_query_pres (tenant_hooks (MongoTenant.getTenantIdKey P)) name R q exec
              = exec q)
    as (Hbody & Hop & Hrun).
  { repeat (apply elem_of_cons in Hin as [->|Hin];
            [split; [reflexivity|]; split; [compute_done | reflexivity]|]).
    by apply elem_of_nil in Hin. }
  split; [exact Hbody|].
  split; [by apply (call_on_created_class _ _ _ _ _ _ _ _ Hm Hname)|].
  split; [by apply (call_on_created_class _ _ _ _ _ _ _ _ Hm Hname)|].
  unfold P. by rewrite plugin_pres.
Qed.

(** C5. [insertMany] is declared in the class body as a method of the
    objects the class constructs. A call of [insertMany] on a class the
    factory has created (the base model having no own property of that
    name) runs the [insertMany] of the host, which receives the document,
    or the array of documents, as the caller gave it: the tenant field of a
    document is what the caller put there, if anything. *)
Theorem insertMany_on_a_bound_class_hands_on_the_documents_as_given :
  ∀ (key : string) (tenant : value) (B : Model) (n n' : nat) (m : BoundModel)
    (doc : props) (docs : list props) (rest : list argument),
    MongoTenant.createTenantAwareModel key B tenant n = (m, n') ->
    lookup_prop "insertMany" (ownProperties B) = None ->
    lookup_prop "insertMany" class_body = Some PrototypeMethod
    ∧ call_on_class (Bound m) "insertMany" (AObject doc :: rest)
      = RunsHost "insertMany" (AObject doc :: rest)
    ∧ call_on_class (Bound m) "insertMany" (AArray docs :: rest)
      = RunsHost "insertMany" (AArray docs :: rest).
Proof.
  intros key tenant B n n' m doc docs rest Hm Hname.
  split; [reflexivity|].
  split; apply (call_on_created_class _ _ _ _ _ _ _ _ Hm Hname); compute_done.
Qed.

(** C10. A call of [insertMany] on a class the factory has created (the base
    model having no own property of that name) runs the [insertMany] of the
    host with all the arguments of the call: the options the caller supplied
    are its second argument, and the completion callback the caller
    supplied, not a function built by the class, is the one it is given. *)
Theorem insertMany_on_a_bound_class_forwards_options_and_callback :
  ∀ (key : string) (tenant : value) (B : Model) (n n' : nat) (m : BoundModel)
    (docs : argument) (options : props),
    MongoTenant.createTenantAwareModel key B tenant n = (m, n') ->
    lookup_prop "insertMany" (ownProperties B) = None ->
    call_on_class (Bound m) "insertMany" [docs; AObject options; AFunction]
    = RunsHost "insertMany" [docs; AObject options; AFunction]
    ∧ call_on_class (Bound m) "insertMany" [docs; AObject options]
      = RunsHost "insertMany" [docs; AObject options]
    ∧ call_on_class (Bound m) "insertMany" [docs; AFunction]
      = RunsHost "insertMany" [docs; AFunction].
Proof.
  intros key tenant B n n' m docs options Hm Hname.
  repeat split; apply (call_on_created_class _ _ _ _ _ _ _ _ Hm Hname); compute_done.
Qed.

(** ** Middleware and bound classes *)

(** C8. [installMiddleWare] registers, after the hooks already on the schema,
    one hook for each of find, findOne, findOneAndRemove, count,
    countDocuments, findOneAndUpdate, update, updateMany and save. The hooks
    read [hasTenantContext] on the class of the query or document, and the
    class body declares it for the objects the class constructs. So for a
    class the factory has created (the base model having no own property
    [hasTenantContext]) the class has no tenant context in the eyes of the
    hooks, and every hook calls [next] with the query, or the document, as
    it received it: the tenant is merged nowhere. *)
Theorem installed_hooks_leave_bound_classes_unscoped :
  ∀ (this : MongoTenant.MongoTenant) (tenant : value) (B : Model) (n n' : nat)
    (m : BoundModel),
    MongoTenant.createTenantAwareModel (MongoTenant.getTenantIdKey this) B tenant n = (m, n') ->
    lookup_prop "hasTenantContext" (ownProperties B) = None ->
    ∃ onFind onUpdate onSave,
      pres (MongoTenant.schema (MongoTenant.installMiddleWare this))
      = pres (MongoTenant.schema this)
        ++ [("find", QueryMiddleware onFind);
            ("findOne", QueryMiddleware onFind);
            ("findOneAndRemove", QueryMiddleware onFind);
            ("count", QueryMiddleware onFind);
            ("countDocuments", QueryMiddleware onFind);
            ("findOneAndUpdate", QueryMiddleware onUpdate);
            ("update", QueryMiddleware onUpdate);
            ("updateMany", QueryMiddleware onUpdate);
            ("save", DocumentMiddleware onSave)]
      ∧ lookup_prop "hasTenantContext" class_body = Some InstanceField
      ∧ lookup_prop "getTenant" class_body = Some PrototypeMethod
      ∧ Model_hasTenantContext (Bound m) = false
      ∧ (∀ R (q : Query) (next : Query -> outcome R),
           q_model q = Bound m -> onFind R q next = next q)
      ∧ (∀ R (q : Query) (next : Query -> outcome R),
           q_model q = Bound m -> onUpdate R q next = next q)
      ∧ (∀ R (d : Document) (next : Document -> outcome R),
           doc_constructor d = Bound m -> onSave R d next = next d).
Proof.
  intros this tenant B n n' m Hm Hname.
  pose proof (created_class_without_tenant_context _ _ _ _ _ _ Hm Hname) as Hc.
  exists (MongoTenant.preFindOrCount (MongoTenant.getTenantIdKey this)),
         (MongoTenant.preUpdate (MongoTenant.getTenantIdKey this)),
         (MongoTenant.preSave (MongoTenant.getTenantIdKey this)).
  split; [apply installMiddleWare_pres|].
  split; [reflexivity|]. split; [reflexivity|]. split; [exact Hc|].
  split; [|split].
  - intros R q next Hq. apply preFindOrCount_unscoped. by rewrite Hq.
  - intros R q next Hq. apply preUpdate_unscoped. by rewrite Hq.
  - intros R d next Hd. apply preSave_unscoped. by rewrite Hd.
Qed.

(** ** Isolation of tenants *)

(** C1. A schema set up by the plugin, a base model compiled from it that
    has no own property [hasTenantContext], [insertMany] or [aggregate], and
    the classes the factory creates for two tenants [A] and [B]. Through the
    class of [A]: a document that is saved reaches the store with the fields
    the caller gave it, the tenant field not being set; a query, update
    queries included, runs with the filter and the payload the caller gave
    it; [insertMany] is the host's and hands on the documents as they are.
    Through the class of [B]: a query, whatever its operation, works on the
    stored documents the caller's own filter selects, and [aggregate] is the
    host's with the caller's pipeline. So a stored document that the filter
    of a query through the class of [B] selects is among the documents of
    that query, whichever tenant it was written for. *)
Theorem documents_of_one_tenant_are_read_through_another :
  ∀ (selects : props -> props -> bool)
    (paths0 : list (string * props)) (indexes0 : list (props * props))
    (statics0 : list (string * static_member))
    (options : MongoTenant.MongoTenantOptions)
    (base : Model) (A B : value) (nA nB : nat),
    (∀ name, name ∈ ["hasTenantContext"; "insertMany"; "aggregate"] ->
             lookup_prop name (ownProperties base) = None) ->
    let P := mongoTenantPlugin (MkSchema paths0 indexes0 statics0 []) options in
    let s := MongoTenant.schema P in
    let key := MongoTenant.getTenantIdKey P in
    let boundA := (MongoTenant.createTenantAwareModel key base A nA).1 in
    let boundB := (MongoTenant.createTenantAwareModel key base B nB).1 in
    (∀ d : props, Host.saved_document s (Bound boundA) d = Returned d)
    ∧ (∀ (name : string) R (q : Query) (exec : Query -> outcome R),
         q_model q = Bound boundA -> Host.run_query_pres (pres s) name R q exec = exec q)
    ∧ (∀ args, call_on_class (Bound boundA) "insertMany" args = RunsHost "insertMany" args)
    ∧ (∀ (name : string) (f : props) (c : Host.Collection),
         Host.selected selects s name (Bound boundB) f c
         = Returned (List.filter (selects f) c))
    ∧ (∀ args, call_on_class (Bound boundB) "aggregate" args = RunsHost "aggregate" args)
    ∧ (∀ (d : props) (name : string) (f : props) (c : Host.Collection),
         d ∈ c -> selects f d = true ->
         ∃ ds, Host.selected selects s name (Bound boundB) f c = Returned ds ∧ d ∈ ds).
Proof.
  intros selects paths0 indexes0 statics0 options base A B nA nB Hname
    P s key boundA boundB.
  pose proof (plugin_pres paths0 indexes0 statics0 options) as Hhooks.
  change (pres s = tenant_hooks key) in Hhooks.
  destruct (MongoTenant.createTenantAwareModel key base A nA) as [mA nA'] eqn:EA.
  destruct (MongoTenant.createTenantAwareModel key base B nB) as [mB nB'] eqn:EB.
  simpl in boundA, boundB.
  assert (lookup_prop "hasTenantContext" (ownProperties base) = None) as Hflag
    by (apply Hname; compute_done).
  pose proof (created_class_without_tenant_context _ _ _ _ _ _ EA Hflag) as HA.
  pose proof (created_class_without_tenant_context _ _ _ _ _ _ EB Hflag) as HB.
  assert (∀ (name : string) (f : props) (c : Host.Collection),
            Host.selected selects s name (Bound boundB) f c
            = Returned (List.filter (selects f) c)) as Hsel.
  { intros name f c. unfold Host.selected. rewrite Hhooks.
    rewrite (run_query_pres_passes _ (Bound mB));
      [done | by apply tenant_hooks_pass | done]. }
  split; [|split; [|split; [|split; [|split]]]].
  - intros d. unfold Host.saved_document. rewrite Hhooks.
    rewrite (run_document_pres_passes _ (Bound mA));
      [done | by apply tenant_hooks_pass | done].
  - intros name R q exec Hq. rewrite Hhooks.
    apply (run_query_pres_passes _ (Bound mA)); [by apply tenant_hooks_pass | done].
  - intros args. apply (call_on_created_class _ _ _ _ _ _ _ _ EA); [|compute_done].
    apply Hname. compute_done.
  - exact Hsel.
  - intros args. apply (call_on_created_class _ _ _ _ _ _ _ _ EB); [|compute_done].
    apply Hname. compute_done.
  - intros d name f c Hin Hd. eexists. split; [apply Hsel|].
    apply list_elem_of_In, filter_In. split; [by apply list_elem_of_In | done].
Qed.

(** ** Uniqueness per tenant *)

(** C2. A schema whose [email] path is declared unique, with the plugin
    applied under its default options: the compound unique index on tenant
    and [email] is declared, and it alone would let two documents with the
    same [email] and different tenants both be stored; but the path is still
    declared unique on its own, so the host still enforces uniqueness of
    [email] across all tenants: with a document of tenant "t1" stored, the
    save of a document with the same [email] and the tenant "t2" fails,
    through the base model and through a bound class alike. The save of a
    second document with the same [email] and the same tenant fails as
    well. *)
Theorem field_level_unique_is_still_enforced_across_tenants :
  let s := MongoTenant.schema Sample.plugin in
  _indexes s = [([("tenant", VNumber 1); ("email", VNumber 1)],
                 [("type", VBuiltin "String"); ("unique", VBool true)])]
  ∧ lookup_prop "email" (paths s) = Some [("type", VBuiltin "String"); ("unique", VBool true)]
  ∧ Host.unique_constraints s = [["email"]; ["tenant"; "email"]]
  ∧ Host.collides ["tenant"; "email"] Sample.of_t2 Sample.of_t1 = false
  ∧ Host.collides ["email"] Sample.of_t2 Sample.of_t1 = true
  ∧ Host.save s (Unbound Sample.User) Sample.of_t1 [] = Returned (Some [Sample.of_t1])
  ∧ Host.save s (Unbound Sample.User) Sample.of_t2 [Sample.of_t1] = Returned None
  ∧ Host.save s (Bound Sample.User_t2) Sample.of_t2 [Sample.of_t1] = Returned None
  ∧ Host.save s (Unbound Sample.User) Sample.of_t1 [Sample.of_t1] = Returned None.
Proof. repeat split. Qed.

(** ** Index rewriting *)

Lemma lookup_prop_filter_other k k' (ps : props) :
  lookup_prop k' ps = None -> lookup_prop k' (filter (other_than k) ps) = None.
Proof.
  induction ps as [|[k0 v0] r IH]; [done|]. cbn [lookup_prop].
  destruct (String.eqb k0 k') eqn:E; [done|]. intros H.
  rewrite filter_cons. destruct (decide _); cbn [lookup_prop]; [rewrite E|]; auto.
Qed.

Lemma tenantAwareIndex_steps k def :
  ∀ done_ todo : props,
    def = done_ ++ todo -> NoDup (keys def) ->
    fold_left (fun acc f => set_prop f (get_prop f def) acc) (keys todo)
              ((k, default (VNumber 1) (lookup_prop k done_)) :: filter (other_than k) done_)
    = (k, default (VNumber 1) (lookup_prop k def)) :: filter (other_than k) def.
Proof.
  intros done_ todo. revert done_.
  induction todo as [|[f v] todo IH]; intros done_ Hdef Hnd.
  - rewrite app_nil_r in Hdef. by subst.
  - assert (lookup_prop f done_ = None) as Hfresh.
    { apply lookup_prop_None. subst def. unfold keys in Hnd.
      rewrite fmap_app in Hnd. apply NoDup_app in Hnd as (_ & Hd & _).
      intros Hin. apply (Hd f Hin). left. }
    assert (get_prop f def = v) as Hv.
    { unfold get_prop. subst def. rewrite lookup_prop_app, Hfresh.
      by rewrite lookup_prop_head. }
    change (keys ((f, v) :: todo)) with (f :: keys todo).
    cbn [fold_left]. rewrite Hv.
    specialize (IH (done_ ++ [(f, v)])).
    rewrite <- IH; [|by rewrite <- (assoc_L (++)) | done].
    f_equal. rewrite lookup_prop_app, filter_app. cbn [set_prop lookup_prop].
    destruct (String.eqb k f) eqn:E.
    + apply String.eqb_eq in E. subst f. rewrite Hfresh, String.eqb_refl. cbn [default].
      rewrite filter_cons_False, filter_nil, app_nil_r; [done|].
      intros Hne. by apply Hne.
    + apply String.eqb_neq in E.
      assert (String.eqb f k = false) as E' by (apply String.eqb_neq; congruence).
      rewrite E'. f_equal.
      * by destruct (lookup_prop k done_).
      * rewrite filter_cons_True, filter_nil by (unfold other_than; simpl; congruence).
        apply set_prop_fresh. by apply lookup_prop_filter_other.
Qed.

Lemma tenantAwareIndex_spec k def :
  NoDup (keys def) -> Forall (fun f => array_index f = None) (keys def) ->
  MongoTenant.tenantAwareIndex k def
  = (k, default (VNumber 1) (lookup_prop k def)) :: filter (other_than k) def.
Proof.
  intros Hnd Hplain. unfold MongoTenant.tenantAwareIndex.
  rewrite enumerate_plain by done.
  by apply (tenantAwareIndex_steps k def [] def).
Qed.

Lemma filter_other_than_absent k (def : props) :
  k ∉ keys def -> filter (other_than k) def = def.
Proof.
  induction def as [|[f v] r IH]; [done|]. intros Hk.
  change (keys ((f, v) :: r)) with (f :: keys r) in Hk.
  apply not_elem_of_cons in Hk as [Hne Hk].
  rewrite filter_cons_True by (unfold other_than; simpl; congruence).
  by rewrite IH.
Qed.

Lemma plain_names_filter k (def : props) :
  Forall (fun f => array_index f = None) (keys def) ->
  Forall (fun f => array_index f = None) (keys (filter (other_than k) def)).
Proof.
  rewrite !Forall_forall. intros Hall f Hf. apply Hall.
  unfold keys in *. apply list_elem_of_fmap in Hf as ([f' v] & -> & Hin).
  apply list_elem_of_filter in Hin as [_ Hin].
  apply list_elem_of_fmap. by exists (f', v).
Qed.

(** C9 (amended). After [compoundIndexes] on an enabled plugin, a schema-level
    index declared with [unique: true] and without [preserveUniqueKey: true],
    none of whose field names, nor the tenant field, is an array index, has
    a key specification that starts with the tenant field and goes on with
    the original fields other than the tenant field, in their original
    order and with their original values, in creation order and in
    enumeration order alike; the tenant field carries the value the original
    specification gave it, or [1] if it had none, in which case the
    specification is the tenant field followed by all original fields. The
    options of the index are left as they were. Any other index is left as
    it was. *)
Theorem compoundIndexes_leads_with_tenant_field :
  ∀ (this : MongoTenant.MongoTenant) (i : nat) (def opts : props),
    MongoTenant.isEnabled this = true ->
    _indexes (MongoTenant.schema this) !! i = Some (def, opts) ->
    NoDup (keys def) ->
    plain_names (MongoTenant.getTenantIdKey this) def ->
    let key := MongoTenant.getTenantIdKey this in
    let after := _indexes (MongoTenant.schema (MongoTenant.compoundIndexes this)) !! i in
    if MongoTenant.is_true opts "unique" && negb (MongoTenant.is_true opts "preserveUniqueKey")
    then ∃ def',
           after = Some (def', opts)
           ∧ def' = (key, default (VNumber 1) (lookup_prop key def))
                      :: filter (other_than key) def
           ∧ enumerate def' = key :: keys (filter (other_than key) def)
           ∧ (key ∉ keys def -> def' = (key, VNumber 1) :: def)
    else after = Some (def, opts).
Proof.
  intros this i def opts He Hi Hnd [Hkey Hplain] key after.
  assert (after = Some (MongoTenant.rewrite_index key (def, opts))) as Hafter.
  { unfold after. rewrite compoundIndexes_indexes by done.
    rewrite lookup_app_l by (rewrite length_fmap; by apply lookup_lt_Some in Hi).
    by rewrite list_lookup_fmap, Hi. }
  rewrite Hafter. unfold MongoTenant.rewrite_index. simpl.
  destruct (MongoTenant.is_true opts "unique"),
           (MongoTenant.is_true opts "preserveUniqueKey"); simpl; try done.
  rewrite tenantAwareIndex_spec by done. eexists. split; [reflexivity|].
  split; [reflexivity|]. split.
  - rewrite enumerate_plain; [done|].
    change (Forall (fun f => array_index f = None)
                   (key :: keys (filter (other_than key) def))).
    apply Forall_cons. split; [exact Hkey | by apply plain_names_filter].
  - intros Hk. rewrite filter_other_than_absent by done.
    apply lookup_prop_None in Hk. by rewrite Hk.
Qed.

(** C9, as stated, fails for a unique index that already names the tenant
    field: [{ email: 1, tenant: -1 }] becomes [{ tenant: -1, email: 1 }],
    which is not the tenant field followed by the original fields [email],
    [tenant]. *)
Lemma compoundIndexes_existing_tenant_field_counterexample :
  let original := [("email", VNumber 1); ("tenant", VNumber (-1))] in
  let this := MongoTenant.constructor Sample.indexedSchema Sample.no_options in
  _indexes (MongoTenant.schema this) !! 0 = Some (original, [("unique", VBool true)])
  ∧ _indexes (MongoTenant.schema (MongoTenant.compoundIndexes this)) !! 0
    = Some ([("tenant", VNumber (-1)); ("email", VNumber 1)], [("unique", VBool true)])
  ∧ ¬ (∃ def opts,
         _indexes (MongoTenant.schema (MongoTenant.compoundIndexes this)) !! 0
         = Some (def, opts)
         ∧ keys def = MongoTenant.getTenantIdKey this :: keys original).
Proof.
  split; [reflexivity|]. split; [reflexivity|].
  intros (def & opts & Hdef & Hkeys). injection Hdef as <- _. discriminate.
Qed.

(** A field named like an array index is enumerated before the tenant
    field: the key specification built for [{ email: 1, 2024: 1 }] lists
    [2024], [tenant], [email]. *)
Lemma tenantAwareIndex_array_index_first :
  enumerate (MongoTenant.tenantAwareIndex "tenant" [("2024", VNumber 1); ("email", VNumber 1)])
  = ["2024"; "tenant"; "email"].
Proof. reflexivity. Qed.

(** ** The accessor and its cache *)

Lemma with_modelCache_same (P : MongoTenant.MongoTenant) :
  MongoTenant.with_modelCache P (MongoTenant._modelCache P) = P.
Proof. by destruct P. Qed.

Lemma cached_insert_empty (P : MongoTenant.MongoTenant) name0 name str :
  MongoTenant._modelCache P !! name0 = None ->
  cached (MongoTenant.with_modelCache P (<[name0 := ∅]> (MongoTenant._modelCache P))) name str
  = cached P name str.
Proof.
  intros Hn. unfold cached. simpl. destruct (decide (name = name0)) as [->|Hne].
  - rewrite lookup_insert_eq, Hn. simpl. apply lookup_empty.
  - by rewrite lookup_insert_ne.
Qed.

(** What a call of the accessor of an enabled plugin always keeps. *)
Lemma accessor_keeps String_of (P P' : MongoTenant.MongoTenant) (this : Model)
    (t : value) (n n' : nat) (r : ModelClass) :
  MongoTenant.isEnabled P = true ->
  MongoTenant.accessor String_of P this t n = (r, P', n') ->
  MongoTenant.options P' = MongoTenant.options P
  ∧ MongoTenant.schema P' = MongoTenant.schema P
  ∧ ∀ name str m, cached P name str = Some m -> cached P' name str = Some m.
Proof.
  intros He Hrun. unfold MongoTenant.accessor in Hrun. rewrite He in Hrun.
  cbn [negb] in Hrun.
  destruct (MongoTenant._modelCache P !! modelName this) as [cm|] eqn:Ec.
  - rewrite Ec in Hrun.
    destruct (cm !! String_of t) as [m0|] eqn:Em.
    + injection Hrun as <- <- <-. by rewrite with_modelCache_same.
    + destruct (on_prototype (String_of t)).
      * injection Hrun as <- <- <-. by rewrite with_modelCache_same.
      * destruct (MongoTenant.createTenantAwareModel _ _ _ _) as [m1 n1] eqn:Ef.
        injection Hrun as <- <- <-. split; [done|]. split; [done|].
        intros name str m. unfold cached. simpl.
        destruct (decide (name = modelName this)) as [->|Hn].
        -- rewrite lookup_insert_eq, Ec. simpl.
           destruct (decide (str = String_of t)) as [->|Hs]; [by rewrite Em|].
           by rewrite lookup_insert_ne.
        -- by rewrite lookup_insert_ne.
  - destruct (on_prototype (modelName this)).
    + rewrite Ec in Hrun. injection Hrun as <- <- <-. by rewrite with_modelCache_same.
    + rewrite lookup_insert_eq in Hrun. rewrite lookup_empty in Hrun.
      destruct (on_prototype (String_of t)).
      * injection Hrun as <- <- <-. split; [done|]. split; [done|].
        intros name str m. by rewrite cached_insert_empty.
      * destruct (MongoTenant.createTenantAwareModel _ _ _ _) as [m1 n1] eqn:Ef.
        injection Hrun as <- <- <-. split; [done|]. split; [done|].
        intros name str m. unfold cached. simpl.
        destruct (decide (name = modelName this)) as [->|Hn].
        -- by rewrite Ec.
        -- by rewrite !lookup_insert_ne.
Qed.

(** The accessor for a model name and a tenant string that name no member of
    [Object.prototype]: the class the cache holds, or a new one. *)
Lemma accessor_ordinary String_of (P P' : MongoTenant.MongoTenant) (this : Model)
    (t : value) (n n' : nat) (r : ModelClass) :
  MongoTenant.isEnabled P = true ->
  ordinary (modelName this) (String_of t) ->
  MongoTenant.accessor String_of P this t n = (r, P', n') ->
  MongoTenant.options P' = MongoTenant.options P
  ∧ MongoTenant.schema P' = MongoTenant.schema P
  ∧ (∀ name str, (name, str) ≠ (modelName this, String_of t) ->
       cached P' name str = cached P name str)
  ∧ match cached P (modelName this) (String_of t) with
    | Some m => r = Bound m ∧ n' = n ∧ P' = P
    | None =>
        ∃ m, MongoTenant.createTenantAwareModel (MongoTenant.getTenantIdKey P) this t n
             = (m, n')
             ∧ r = Bound m ∧ cached P' (modelName this) (String_of t) = Some m
    end.
Proof.
  intros He [Hname Hstr] Hrun. unfold MongoTenant.accessor in Hrun. rewrite He in Hrun.
  cbn [negb] in Hrun. rewrite Hname, Hstr in Hrun. unfold cached.
  destruct (MongoTenant._modelCache P !! modelName this) as [cm|] eqn:Ec.
  - cbn [mbind option_bind] in *. rewrite Ec in Hrun.
    destruct (cm !! String_of t) as [m|] eqn:Em.
    + injection Hrun as <- <- <-. rewrite with_modelCache_same. done.
    + destruct (MongoTenant.createTenantAwareModel _ _ _ _) as [m n1] eqn:Ef.
      injection Hrun as <- <- <-. cbn [MongoTenant.options MongoTenant.schema
        MongoTenant.with_modelCache MongoTenant._modelCache].
      split; [done|]. split; [done|]. split.
      * intros name str Hne. destruct (decide (name = modelName this)) as [->|Hn].
        -- rewrite lookup_insert_eq, Ec. simpl.
           rewrite lookup_insert_ne; [done | congruence].
        -- by rewrite lookup_insert_ne.
      * exists m. split; [done|]. split; [done|].
        rewrite lookup_insert_eq. simpl. apply lookup_insert_eq.
  - rewrite lookup_insert_eq in Hrun. rewrite lookup_empty in Hrun.
    destruct (MongoTenant.createTenantAwareModel _ _ _ _) as [m n1] eqn:Ef.
    injection Hrun as <- <- <-. cbn [MongoTenant.options MongoTenant.schema
      MongoTenant.with_modelCache MongoTenant._modelCache mbind option_bind].
    split; [done|]. split; [done|]. split.
    + intros name str Hne. destruct (decide (name = modelName this)) as [->|Hn].
      * rewrite lookup_insert_eq, Ec. simpl.
        rewrite lookup_insert_ne; [apply lookup_empty | congruence].
      * by rewrite !lookup_insert_ne.
    + exists m. split; [done|]. split; [done|].
      rewrite lookup_insert_eq. simpl. apply lookup_insert_eq.
Qed.

Lemma accessor_inherited String_of (P : MongoTenant.MongoTenant) (this : Model)
    (t : value) (n : nat) :
  MongoTenant.isEnabled P = true ->
  on_prototype (modelName this) = false ->
  on_prototype (String_of t) = true ->
  cached P (modelName this) (String_of t) = None ->
  MongoTenant.accessor String_of P this t n
  = (Inherited (String_of t),
     match MongoTenant._modelCache P !! modelName this with
     | Some _ => P
     | None =>
         MongoTenant.with_modelCache P (<[modelName this := ∅]> (MongoTenant._modelCache P))
     end,
     n).
Proof.
  intros He Hname Hproto Hc. unfold MongoTenant.accessor. rewrite He. cbn [negb].
  rewrite Hname. unfold cached in Hc.
  destruct (MongoTenant._modelCache P !! modelName this) as [cm|] eqn:Ec.
  - cbn [mbind option_bind] in Hc. rewrite Ec, Hc, Hproto. by rewrite with_modelCache_same.
  - rewrite lookup_insert_eq, lookup_empty. by rewrite Hproto.
Qed.

(** C6. With the plugin enabled, a tenant identifier whose string form names
    a member of [Object.prototype] (such as [toString] or [constructor]) and
    for which the cache of the model has no own property: the lookup in the
    cache object finds the inherited member, so the accessor creates no
    class and stores none, and hands back that member instead of a bound
    class, on the first call and on a second call with an identifier of the
    same string form. *)
Theorem accessor_returns_an_inherited_member :
  ∀ (String_of : value -> string) (P : MongoTenant.MongoTenant) (this : Model)
    (t1 t2 : value) (n : nat),
    MongoTenant.isEnabled P = true ->
    String_of t1 = String_of t2 ->
    on_prototype (String_of t1) = true ->
    on_prototype (modelName this) = false ->
    cached P (modelName this) (String_of t1) = None ->
    ∃ P1,
      MongoTenant.accessor String_of P this t1 n = (Inherited (String_of t1), P1, n)
      ∧ MongoTenant.accessor String_of P1 this t2 n = (Inherited (String_of t1), P1, n)
      ∧ cached P1 (modelName this) (String_of t1) = None
      ∧ ∀ name str, cached P1 name str = cached P name str.
Proof.
  intros String_of P this t1 t2 n He Hstr Hproto Hname Hc.
  rewrite (accessor_inherited String_of P this t1 n He Hname Hproto Hc).
  set (P1 := match MongoTenant._modelCache P !! modelName this with
             | Some _ => P
             | None => _
             end).
  assert (MongoTenant.isEnabled P1 = true ∧ is_Some (MongoTenant._modelCache P1 !! modelName this)
          ∧ ∀ name str, cached P1 name str = cached P name str) as (He1 & [cm Hcm] & Hsame).
  { unfold P1. destruct (MongoTenant._modelCache P !! modelName this) as [cm|] eqn:Ec.
    - split; [done|]. split; [by rewrite Ec|done].
    - split; [done|]. split; [simpl; rewrite lookup_insert_eq; eauto|].
      intros name str. by apply cached_insert_empty. }
  exists P1. split; [done|].
  assert (cached P1 (modelName this) (String_of t1) = None) as Hc1 by (by rewrite Hsame).
  split; [|done].
  rewrite Hstr in Hc1, Hproto |- *.
  rewrite (accessor_inherited String_of P1 this t2 n He1 Hname Hproto Hc1).
  by rewrite Hcm.
Qed.

(** ** The claims at sample inputs *)

Lemma triple_eta {A B C} (x : A * B * C) : x = (x.1.1, x.1.2, x.2).
Proof. by destruct x as [[? ?] ?]. Qed.

(** A document saved through the class bound to "t1" is stored without a
    tenant, and [find({})] through the class bound to "t2" returns it. *)
Lemma documents_of_one_tenant_are_read_through_another_witness :
  let P := mongoTenantPlugin (MkSchema (paths Sample.userSchema) [] [] []) Sample.no_options in
  let s := MongoTenant.schema P in
  let key := MongoTenant.getTenantIdKey P in
  let boundA := (MongoTenant.createTenantAwareModel key Sample.User (VString "t1") 0).1 in
  let boundB := (MongoTenant.createTenantAwareModel key Sample.User (VString "t2") 1).1 in
  let d := [("email", VString "a@example.org")] in
  Host.saved_document s (Bound boundA) d = Returned d
  ∧ get_prop key d = VUndefined
  ∧ Host.selected Sample.equal_fields s "find" (Bound boundB) [] [d] = Returned [d].
Proof.
  intros P s key boundA boundB d.
  destruct (documents_of_one_tenant_are_read_through_another Sample.equal_fields
              (paths Sample.userSchema) [] [] Sample.no_options Sample.User
              (VString "t1") (VString "t2") 0 1) as (Hs & _ & _ & Hq & _).
  - intros name Hin.
    repeat (apply elem_of_cons in Hin as [->|Hin]; [reflexivity|]).
    by apply elem_of_nil in Hin.
  - split; [exact (Hs d)|]. split; [reflexivity|]. exact (Hq "find" [] [d]).
Defined.

(** [byTenant('t1').aggregate([{ $match: ... }])] and
    [byTenant('t1').aggregate()] *)
Lemma aggregate_on_a_bound_class_is_the_hosts_witness :
  call_on_class (Bound Sample.User_t1) "aggregate" [AArray [[("$match", VRef 1%positive)]]]
  = RunsHost "aggregate" [AArray [[("$match", VRef 1%positive)]]]
  ∧ call_on_class (Bound Sample.User_t1) "aggregate" [] = RunsHost "aggregate" [].
Proof.
  destruct (aggregate_on_a_bound_class_is_the_hosts "tenant" (VString "t1") Sample.User
              0 1 Sample.User_t1 [AArray [[("$match", VRef 1%positive)]]] eq_refl eq_refl)
    as (_ & H1 & H2).
  split; [exact H1 | exact H2].
Defined.

(** [byTenant('t1').deleteMany()] and
    [byTenant('t1').deleteOne({ tenant: 'other' })] *)
Lemma delete_operations_on_a_bound_class_are_the_hosts_witness :
  call_on_class (Bound Sample.User_t1) "deleteMany" [] = RunsHost "deleteMany" []
  ∧ call_on_class (Bound Sample.User_t1) "deleteOne" [AObject [("tenant", VString "other")]]
    = RunsHost "deleteOne" [AObject [("tenant", VString "other")]].
Proof.
  split.
  - destruct (delete_operations_on_a_bound_class_are_the_hosts
                (paths Sample.userSchema) [] [] Sample.no_options (VString "t1")
                Sample.User 0 1 Sample.User_t1 "deleteMany" [] eq_refl) as (_ & _ & H & _);
      [compute_done | reflexivity | exact H].
  - destruct (delete_operations_on_a_bound_class_are_the_hosts
                (paths Sample.userSchema) [] [] Sample.no_options (VString "t1")
                Sample.User 0 1 Sample.User_t1 "deleteOne"
                [AObject [("tenant", VString "other")]] eq_refl) as (_ & H & _);
      [compute_done | reflexivity | exact H].
Defined.

(** [byTenant('t1').insertMany([{ email: ... }])]: the document reaches the
    host without a tenant. *)
Lemma insertMany_on_a_bound_class_hands_on_the_documents_as_given_witness :
  let doc := [("email", VString "a@example.org")] in
  call_on_class (Bound Sample.User_t1) "insertMany" [AArray [doc]]
  = RunsHost "insertMany" [AArray [doc]]
  ∧ get_prop "tenant" doc = VUndefined.
Proof.
  intros doc.
  destruct (insertMany_on_a_bound_class_hands_on_the_documents_as_given "tenant"
              (VString "t1") Sample.User 0 1 Sample.User_t1 doc [doc] [] eq_refl eq_refl)
    as (_ & _ & H).
  split; [exact H | reflexivity].
Defined.

Lemma insertMany_on_a_bound_class_forwards_options_and_callback_witness :
  let doc := AObject [("email", VString "a@example.org")] in
  let options := AObject [("ordered", VBool false)] in
  call_on_class (Bound Sample.User_t1) "insertMany" [doc; options; AFunction]
  = RunsHost "insertMany" [doc; options; AFunction].
Proof.
  intros doc options.
  destruct (insertMany_on_a_bound_class_forwards_options_and_callback "tenant"
              (VString "t1") Sample.User 0 1 Sample.User_t1 doc [("ordered", VBool false)]
              eq_refl eq_refl) as (H & _).
  exact H.
Defined.

(** [find({ email: ... })] through the class bound to "t1": the hook passes
    the filter on without the tenant. *)
Lemma installed_hooks_leave_bound_classes_unscoped_witness :
  let q := MkQuery (Bound Sample.User_t1) [("email", VString "a@example.org")] [] in
  Host.run_query_pres (pres (MongoTenant.schema Sample.plugin)) "find" Query q Returned
  = Returned q.
Proof.
  intros q.
  destruct (installed_hooks_leave_bound_classes_unscoped
              (MongoTenant.injectApi
                 (MongoTenant.compoundIndexes
                    (MongoTenant.extendSchema
                       (MongoTenant.constructor Sample.userSchema Sample.no_options))))
              (VString "t1") Sample.User 0 1 Sample.User_t1 eq_refl eq_refl)
    as (onFind & onUpdate & onSave & Hpres & _ & _ & _ & Hfind & _ & _).
  change (pres (MongoTenant.schema Sample.plugin)
          = [("find", QueryMiddleware onFind); ("findOne", QueryMiddleware onFind);
             ("findOneAndRemove", QueryMiddleware onFind); ("count", QueryMiddleware onFind);
             ("countDocuments", QueryMiddleware onFind);
             ("findOneAndUpdate", QueryMiddleware onUpdate);
             ("update", QueryMiddleware onUpdate); ("updateMany", QueryMiddleware onUpdate);
             ("save", DocumentMiddleware onSave)]) in Hpres.
  rewrite Hpres. simpl. by rewrite Hfind.
Defined.

(** [byTenant('toString')], twice. *)
Lemma accessor_returns_an_inherited_member_witness :
  ∃ P1,
    MongoTenant.accessor Sample.String_of Sample.plugin Sample.User (VString "toString") 0
    = (Inherited "toString", P1, 0)
    ∧ MongoTenant.accessor Sample.String_of P1 Sample.User (VString "toString") 0
      = (Inherited "toString", P1, 0)
    ∧ cached P1 "User" "toString" = None.
Proof.
  destruct (accessor_returns_an_inherited_member Sample.String_of Sample.plugin Sample.User
              (VString "toString") (VString "toString") 0
              eq_refl eq_refl eq_refl eq_refl eq_refl) as (P1 & H1 & H2 & H3 & _).
  exists P1. split; [exact H1|]. split; [exact H2 | exact H3].
Defined.

Lemma compoundIndexes_leads_with_tenant_field_witness :
  _indexes (MongoTenant.schema
              (MongoTenant.compoundIndexes
                 (MongoTenant.constructor Sample.indexedSchema Sample.no_options))) !! 1
  = Some ([("tenant", VNumber 1); ("name", VNumber 1)],
          [("unique", VBool true); ("sparse", VBool true)]).
Proof.
  pose proof (compoundIndexes_leads_with_tenant_field
                (MongoTenant.constructor Sample.indexedSchema Sample.no_options) 1
                [("name", VNumber 1)] [("unique", VBool true); ("sparse", VBool true)]
                eq_refl eq_refl) as H.
  destruct H as (def' & Hafter & _ & _ & Hdef').
  - apply NoDup_cons. split; [apply not_elem_of_nil | apply NoDup_nil_2].
  - split; [reflexivity|]. apply Forall_cons. split; [reflexivity | apply Forall_nil_2].
  - rewrite Hafter, Hdef'; [reflexivity|].
    intros Hin. apply elem_of_cons in Hin as [Hin|Hin]; [discriminate|].
    by apply elem_of_nil in Hin.
Defined.

(** * Further properties of the code *)

(** ** Setting up a schema *)

(** X7. After the plugin has been applied to a schema, each option reads as
    the caller gave it, or as its default when the caller gave none
    (enabled, tenant field [tenant], type [String], accessor [byTenant], not
    required), and the model cache is empty. *)
Theorem plugin_options_are_the_given_ones_or_the_defaults :
  ∀ (s : Schema) (o : MongoTenant.MongoTenantOptions),
    let P := mongoTenantPlugin s o in
    MongoTenant.isEnabled P = default true (MongoTenant.opt_enabled o)
    ∧ MongoTenant.getTenantIdKey P = default "tenant" (MongoTenant.opt_tenantIdKey o)
    ∧ MongoTenant.getTenantIdType P
      = default (VBuiltin "String") (MongoTenant.opt_tenantIdType o)
    ∧ MongoTenant.getAccessorMethod P
      = default "byTenant" (MongoTenant.opt_accessorMethod o)
    ∧ MongoTenant.isTenantIdRequired P
      = default false (MongoTenant.opt_requireTenantId o)
    ∧ MongoTenant._modelCache P = ∅.
Proof.
  intros s o P. destruct (plugin_parts s o) as (Ho & Hc & _). fold P in Ho, Hc.
  unfold MongoTenant.isEnabled, MongoTenant.getTenantIdKey, MongoTenant.getTenantIdType,
    MongoTenant.getAccessorMethod, MongoTenant.isTenantIdRequired.
  rewrite Ho. done.
Qed.

(** X8. Applying the plugin, unless it is disabled, declares the tenant field
    as a path with the options [index: true], the configured type and the
    configured [required] flag, in place of whatever the schema had declared
    under that name; every other path keeps the options it was declared
    with. *)
Theorem plugin_declares_the_tenant_path :
  ∀ (s : Schema) (o : MongoTenant.MongoTenantOptions),
    MongoTenant.opt_enabled o ≠ Some false ->
    let P := mongoTenantPlugin s o in
    lookup_prop (MongoTenant.getTenantIdKey P) (paths (MongoTenant.schema P))
    = Some [("index", VBool true);
            ("type", MongoTenant.getTenantIdType P);
            ("required", VBool (MongoTenant.isTenantIdRequired P))]
    ∧ ∀ k, k ≠ MongoTenant.getTenantIdKey P ->
           lookup_prop k (paths (MongoTenant.schema P)) = lookup_prop k (paths s).
Proof.
  intros s o He P.
  destruct (plugin_parts s o) as (Ho & _ & Hp & _). fold P in Ho, Hp.
  unfold MongoTenant.getTenantIdKey, MongoTenant.getTenantIdType,
    MongoTenant.isTenantIdRequired. rewrite Hp, Ho.
  unfold MongoTenant.extendSchema, MongoTenant.isEnabled.
  assert (MongoTenant.enabled (MongoTenant.options (MongoTenant.constructor s o)) = true)
    as ->.
  { simpl. destruct (MongoTenant.opt_enabled o) as [[]|]; done. }
  cbn [negb MongoTenant.schema MongoTenant.with_schema Schema_add paths].
  split; [apply lookup_set_prop_eq|].
  intros k Hk. by apply lookup_set_prop_ne.
Qed.

Lemma plugin_declares_the_tenant_path_witness :
  lookup_prop "tenant" (paths (MongoTenant.schema Sample.plugin))
  = Some [("index", VBool true); ("type", VBuiltin "String"); ("required", VBool false)]
  ∧ lookup_prop "email" (paths (MongoTenant.schema Sample.plugin))
    = Some [("type", VBuiltin "String"); ("unique", VBool true)].
Proof.
  destruct (plugin_declares_the_tenant_path Sample.userSchema Sample.no_options
              ltac:(discriminate)) as [Ht Hk].
  split; [exact Ht|]. apply (Hk "email"). discriminate.
Defined.

(** X9. Applying the plugin with [enabled: false] leaves the paths and the
    indexes of the schema as they were, and the accessor it registers hands
    back the very model it is called on, for every tenant identifier,
    creating no class and leaving the cache alone. *)
Theorem disabled_plugin_changes_nothing :
  ∀ (s : Schema) (o : MongoTenant.MongoTenantOptions),
    MongoTenant.opt_enabled o = Some false ->
    let P := mongoTenantPlugin s o in
    paths (MongoTenant.schema P) = paths s
    ∧ _indexes (MongoTenant.schema P) = _indexes s
    ∧ ∀ (String_of : value -> string) (this : Model) (tenantId : value) (n : nat),
        MongoTenant.accessor String_of P this tenantId n = (Unbound this, P, n).
Proof.
  intros s o He P.
  destruct (plugin_parts s o) as (Ho & _ & Hp & Hi & _). fold P in Ho, Hp, Hi.
  assert (MongoTenant.isEnabled (MongoTenant.constructor s o) = false) as Hd.
  { unfold MongoTenant.isEnabled. simpl. by rewrite He. }
  assert (MongoTenant.extendSchema (MongoTenant.constructor s o)
          = MongoTenant.constructor s o) as H1.
  { unfold MongoTenant.extendSchema. by rewrite Hd. }
  rewrite H1 in Hp, Hi.
  assert (MongoTenant.compoundIndexes (MongoTenant.constructor s o)
          = MongoTenant.constructor s o) as H2.
  { unfold MongoTenant.compoundIndexes. by rewrite Hd. }
  rewrite H2 in Hi.
  split; [exact Hp|]. split; [exact Hi|].
  intros String_of this tenantId n. unfold MongoTenant.accessor, MongoTenant.isEnabled.
  rewrite Ho. simpl. by rewrite He.
Qed.

Lemma disabled_plugin_changes_nothing_witness :
  let o := MongoTenant.MkOptions (Some false) None None None None in
  let P := mongoTenantPlugin Sample.userSchema o in
  paths (MongoTenant.schema P) = paths Sample.userSchema
  ∧ _indexes (MongoTenant.schema P) = []
  ∧ MongoTenant.accessor Sample.String_of P Sample.User (VString "t1") 0
    = (Unbound Sample.User, P, 0).
Proof.
  intros o P.
  destruct (disabled_plugin_changes_nothing Sample.userSchema o eq_refl) as (Hp & Hi & Ha).
  split; [exact Hp|]. split; [exact Hi|]. apply Ha.
Defined.

Lemma spread_unique_same (o : props) :
  MongoTenant.is_true o "unique" = true -> spread o [("unique", VBool true)] = o.
Proof.
  intros H. rewrite spread_single. apply set_prop_same.
  unfold MongoTenant.is_true, strict_eq, get_prop in H.
  apply bool_decide_eq_true in H. by destruct (lookup_prop "unique" o); simpl in H; subst.
Qed.

Lemma path_indexes_unique_paths key ps :
  path_indexes key ps
  = (fun p : string * props => (set_prop p.1 (VNumber 1) [(key, VNumber 1)], p.2))
      <$> List.filter (fun p : string * props => declares_unique p.2) ps.
Proof.
  induction ps as [|[k o] r IH]; [done|].
  unfold path_indexes. cbn [fold_left]. rewrite compound_paths_fold, IH.
  unfold MongoTenant.compound_path, declares_unique. cbn [List.filter snd fst].
  destruct (MongoTenant.is_true o "unique") eqn:Hu; cbn [negb orb andb]; [|done].
  destruct (MongoTenant.is_true o "preserveUniqueKey"); cbn [negb]; [done|].
  cbn [_indexes Schema_index app fmap list_fmap fst snd]. by rewrite spread_unique_same.
Qed.

(** X10. [compoundIndexes] of an enabled plugin leaves every path with the
    options it was declared with, keeps the schema-level indexes in their
    number and order, and appends after them one index per path declared
    with [unique: true] and without [preserveUniqueKey: true], in path
    order: its key specification is the tenant field and the path, both
    with 1 (the tenant field alone for the tenant path itself), and its
    options are all the options of the path. *)
Theorem compoundIndexes_adds_one_index_per_unique_path :
  ∀ (this : MongoTenant.MongoTenant),
    MongoTenant.isEnabled this = true ->
    let s := MongoTenant.schema this in
    let s' := MongoTenant.schema (MongoTenant.compoundIndexes this) in
    let key := MongoTenant.getTenantIdKey this in
    paths s' = paths s
    ∧ ∃ rewritten,
        length rewritten = length (_indexes s)
        ∧ _indexes s'
          = rewritten
            ++ ((fun p : string * props => (set_prop p.1 (VNumber 1) [(key, VNumber 1)], p.2))
                  <$> List.filter (fun p : string * props => declares_unique p.2) (paths s)).
Proof.
  intros this He s s' key. split; [apply compoundIndexes_paths|].
  exists (MongoTenant.rewrite_index key <$> _indexes s).
  split; [apply length_fmap|].
  unfold s'. rewrite compoundIndexes_indexes by done.
  by rewrite path_indexes_unique_paths.
Qed.

Lemma compoundIndexes_adds_one_index_per_unique_path_witness :
  let this := MongoTenant.extendSchema (MongoTenant.constructor Sample.userSchema Sample.no_options) in
  paths (MongoTenant.schema (MongoTenant.compoundIndexes this)) = paths (MongoTenant.schema this)
  ∧ _indexes (MongoTenant.schema (MongoTenant.compoundIndexes this))
    = [([("tenant", VNumber 1); ("email", VNumber 1)],
        [("type", VBuiltin "String"); ("unique", VBool true)])].
Proof.
  intros this.
  destruct (compoundIndexes_adds_one_index_per_unique_path this eq_refl)
    as (Hp & rewritten & Hlen & Hi).
  split; [exact Hp|]. rewrite Hi.
  destruct rewritten; [reflexivity | discriminate Hlen].
Defined.

(** X21. The key specification built for a unique index, for field names
    of any kind. Its fields are created tenant field first, then the other
    fields of the original specification in the order the runtime
    enumerates them (fields named like array indices first, in ascending
    numeric order, then the remaining fields in the order they were
    created). The tenant field has the value the original specification
    gave it, or 1, and every other field keeps its value. When the tenant
    field is not named like an array index while a field of the original
    specification is, the first field the runtime enumerates in the new
    key specification is named like an array index, so it is not the tenant
    field. *)
Theorem tenantAwareIndex_follows_the_order_of_enumeration :
  ∀ (key : string) (def : props),
    NoDup (keys def) ->
    let index := MongoTenant.tenantAwareIndex key def in
    keys index = key :: filter (fun f => f ≠ key) (enumerate def)
    ∧ get_prop key index = default (VNumber 1) (lookup_prop key def)
    ∧ (∀ f, f ≠ key -> lookup_prop f index = lookup_prop f def)
    ∧ (array_index key = None ->
       ∀ f, f ∈ keys def -> array_index f ≠ None ->
       ∃ first rest, enumerate index = first :: rest ∧ array_index first ≠ None).
Proof.
  intros key def Hnd index.
  destruct (tenantAwareIndex_fields key def Hnd) as (Hkeys & Hkey & Hother).
  split; [exact Hkeys|]. split; [exact Hkey|]. split; [exact Hother|].
  intros Hplain f Hf Hidx.
  assert (f ∈ filter (fun k => array_index k ≠ None) (keys index)) as Hin.
  { apply list_elem_of_filter. split; [done|]. unfold index. rewrite Hkeys. right.
    apply list_elem_of_filter. split; [congruence | by apply elem_of_enumerate]. }
  rewrite <- enumerate_indices_perm in Hin.
  unfold enumerate.
  destruct ((foldr _ [] (keys index)).*2) as [|first rest] eqn:E;
    [by apply elem_of_nil in Hin|].
  exists first, (rest ++ filter (fun k => array_index k = None) (keys index)).
  split; [done|].
  assert (first ∈ filter (fun k => array_index k ≠ None) (keys index)) as Hfirst.
  { rewrite <- enumerate_indices_perm, E. left. }
  by apply list_elem_of_filter in Hfirst as [? _].
Qed.

Lemma tenantAwareIndex_follows_the_order_of_enumeration_witness :
  let index := MongoTenant.tenantAwareIndex "tenant" [("email", VNumber 1); ("2024", VNumber 1)] in
  keys index = ["tenant"; "2024"; "email"]
  ∧ enumerate index = ["2024"; "tenant"; "email"].
Proof.
  intros index.
  destruct (tenantAwareIndex_follows_the_order_of_enumeration "tenant"
              [("email", VNumber 1); ("2024", VNumber 1)]) as (Hkeys & _ & _ & Hfirst).
  - apply NoDup_cons. split; [|apply NoDup_cons; split; [apply not_elem_of_nil | apply NoDup_nil_2]].
    intros Hin. apply list_elem_of_singleton in Hin. discriminate.
  - split; [exact Hkeys | reflexivity].
Defined.

(** X11. For a schema that had no hooks before the plugin was applied, an
    operation other than the nine [installMiddleWare] names (such as
    [updateOne], [findOneAndDelete], [replaceOne] or [distinct]) runs with
    the query, or the document, exactly as the caller built it: no hook adds
    the tenant. *)
Theorem operations_without_a_hook_run_unchanged :
  ∀ paths0 indexes0 statics0 (o : MongoTenant.MongoTenantOptions) (name : string),
    name ∉ hooked_operations ->
    let s := MongoTenant.schema (mongoTenantPlugin (MkSchema paths0 indexes0 statics0 []) o) in
    (∀ R (q : Query) (exec : Query -> outcome R),
       Host.run_query_pres (pres s) name R q exec = exec q)
    ∧ (∀ R (d : Document) (exec : Document -> outcome R),
         Host.run_document_pres (pres s) name R d exec = exec d).
Proof.
  intros paths0 indexes0 statics0 o name Hname s. unfold s.
  rewrite plugin_pres. unfold tenant_hooks, hooked_operations in *.
  assert (∀ n, n ∈ ["find"; "findOne"; "findOneAndRemove"; "count"; "countDocuments";
                    "findOneAndUpdate"; "update"; "updateMany"; "save"] ->
               String.eqb n name = false) as Hne.
  { intros n Hn. apply String.eqb_neq. intros ->. by apply Hname. }
  split; intros R x exec; cbn [Host.run_query_pres Host.run_document_pres];
    rewrite ?Hne by (repeat first [apply list_elem_of_here | apply list_elem_of_further]);
    reflexivity.
Qed.

Lemma operations_without_a_hook_run_unchanged_witness :
  let q := MkQuery (Bound Sample.User_t1) [("email", VString "a@example.org")]
                   [("name", VString "A")] in
  Host.run_query_pres (pres (MongoTenant.schema Sample.plugin)) "updateOne" Query q Returned
  = Returned q.
Proof.
  intros q.
  destruct (operations_without_a_hook_run_unchanged
              (paths Sample.userSchema) [] [] Sample.no_options "updateOne") as [Hq _].
  - intros Hin. unfold hooked_operations in Hin.
    repeat (apply elem_of_cons in Hin as [Hin|Hin]; [discriminate Hin|]).
    by apply elem_of_nil in Hin.
  - apply (Hq Query q Returned).
Defined.

(** X12. After the plugin has been applied, the static [mongoTenant] of the
    schema is the plugin reference; the static under the accessor name is
    the accessor function unless the accessor is itself named [mongoTenant],
    in which case the plugin reference has replaced it; every other static
    of the schema is as it was. *)
Theorem plugin_registers_its_statics :
  ∀ (s : Schema) (o : MongoTenant.MongoTenantOptions),
    let P := mongoTenantPlugin s o in
    let st := statics (MongoTenant.schema P) in
    lookup_prop "mongoTenant" st = Some PluginReference
    ∧ lookup_prop (MongoTenant.getAccessorMethod P) st
      = Some (if String.eqb (MongoTenant.getAccessorMethod P) "mongoTenant"
              then PluginReference else AccessorFunction)
    ∧ ∀ k, k ≠ "mongoTenant" -> k ≠ MongoTenant.getAccessorMethod P ->
           lookup_prop k st = lookup_prop k (statics s).
Proof.
  intros s o P st. destruct (plugin_parts s o) as (_ & _ & _ & _ & Hs & _).
  fold P in Hs. unfold st. rewrite Hs.
  split; [apply lookup_set_prop_eq|]. split.
  - destruct (String.eqb _ "mongoTenant") eqn:E.
    + apply String.eqb_eq in E. rewrite E. apply lookup_set_prop_eq.
    + apply String.eqb_neq in E. rewrite lookup_set_prop_ne by congruence.
      apply lookup_set_prop_eq.
  - intros k H1 H2. rewrite !lookup_set_prop_ne by congruence. done.
Qed.

(** ** The hooks and the static properties of a class *)

(** X20. The hooks go by the static properties of the class of the query or
    document. For a model class that has a truthy own property
    [hasTenantContext]: when it also has a function [getTenant], the find
    and count hooks hand on the query with the tenant field of the filter
    set to what [getTenant()] returns, the update hooks set it in the
    update payload as well, and the save hook sets it on the document, the
    other fields staying as they are; when its [getTenant] is no function,
    the call throws and the hook does not reach [next]. *)
Theorem hooks_go_by_the_static_properties_of_the_class :
  ∀ (key : string) (b : Model) (flag : value),
    lookup_prop "hasTenantContext" (ownProperties b) = Some (Data flag) ->
    truthy flag = true ->
    (∀ R (q : Query) (next : Query -> outcome R),
       q_model q = Unbound b ->
       MongoTenant.preFindOrCount key R q next
       = match lookup_prop "getTenant" (ownProperties b) with
         | Some (Function t) =>
             next (MkQuery (Unbound b) (set_prop key t (_conditions q)) (_update q))
         | _ => TypeError
         end)
    ∧ (∀ R (q : Query) (next : Query -> outcome R),
         q_model q = Unbound b ->
         MongoTenant.preUpdate key R q next
         = match lookup_prop "getTenant" (ownProperties b) with
           | Some (Function t) =>
               next (MkQuery (Unbound b) (set_prop key t (_conditions q))
                             (set_prop key t (_update q)))
           | _ => TypeError
           end)
    ∧ (∀ R (d : Document) (next : Document -> outcome R),
         doc_constructor d = Unbound b ->
         MongoTenant.preSave key R d next
         = match lookup_prop "getTenant" (ownProperties b) with
           | Some (Function t) =>
               next (MkDocument (Unbound b) (set_prop key t (doc_fields d)))
           | _ => TypeError
           end).
Proof.
  intros key b flag Hflag Htruthy.
  assert (Model_hasTenantContext (Unbound b) = true) as Hc.
  { unfold Model_hasTenantContext, class_lookup. by rewrite Hflag. }
  assert (Model_getTenant (Unbound b)
          = match lookup_prop "getTenant" (ownProperties b) with
            | Some (Function t) => Returned t
            | _ => TypeError
            end) as Hg.
  { unfold Model_getTenant, class_lookup.
    by destruct (lookup_prop "getTenant" (ownProperties b)) as [[t|v]|]. }
  split; [|split].
  - intros R q next Hq. unfold MongoTenant.preFindOrCount. rewrite Hq, Hc, Hg.
    destruct (lookup_prop "getTenant" (ownProperties b)) as [[t|v]|]; try done.
    cbn [mbind outcome_bind mret outcome_ret]. rewrite spread_single.
    unfold setQuery, getQuery. by rewrite Hq.
  - intros R q next Hq. unfold MongoTenant.preUpdate. rewrite Hq, Hc, Hg.
    destruct (lookup_prop "getTenant" (ownProperties b)) as [[t|v]|]; try done.
    cbn [mbind outcome_bind mret outcome_ret]. rewrite spread_single.
    unfold Query_set, setQuery, getQuery. simpl. by rewrite Hq.
  - intros R d next Hd. unfold MongoTenant.preSave. rewrite Hd, Hc, Hg.
    destruct (lookup_prop "getTenant" (ownProperties b)) as [[t|v]|]; try done.
    cbn [mbind outcome_bind mret outcome_ret]. unfold Document_set. by rewrite Hd.
Qed.

Lemma hooks_go_by_the_static_properties_of_the_class_witness :
  let q := MkQuery (Unbound Sample.Harness) [("email", VString "a@example.org")] [] in
  MongoTenant.preFindOrCount "tenant" Query q Returned
  = Returned (MkQuery (Unbound Sample.Harness)
                [("email", VString "a@example.org"); ("tenant", VString "t1")] []).
Proof.
  intros q.
  destruct (hooks_go_by_the_static_properties_of_the_class "tenant" Sample.Harness
              (VBool true) eq_refl eq_refl) as (H & _).
  exact (H Query q Returned eq_refl).
Defined.

(** ** The accessor and the classes it creates *)

(** X13. The model cache only grows: a call of the accessor of an enabled
    plugin leaves every entry the cache had, for every model name and tenant
    string, as it was, and leaves the options and the schema of the plugin
    unchanged. *)
Theorem accessor_keeps_the_cached_classes :
  ∀ (String_of : value -> string) (P P' : MongoTenant.MongoTenant) (this : Model)
    (t : value) (n n' : nat) (r : ModelClass) (name str : string) (m : BoundModel),
    MongoTenant.isEnabled P = true ->
    MongoTenant.accessor String_of P this t n = (r, P', n') ->
    cached P name str = Some m ->
    cached P' name str = Some m
    ∧ MongoTenant.options P' = MongoTenant.options P
    ∧ MongoTenant.schema P' = MongoTenant.schema P.
Proof.
  intros String_of P P' this t n n' r name str m He Hrun Hc.
  destruct (accessor_keeps String_of P P' this t n n' r He Hrun) as (Ho & Hs & Hk).
  split; [by apply Hk | done].
Qed.

(** X14. Two tenant identifiers with different string forms, neither of them
    cached yet for the model, the name of the model and the two strings
    naming no member of [Object.prototype]: the accessor of an enabled
    plugin creates one class for each, whose objects report the identifier
    of their class as their tenant, the two classes being different; asking
    for the first identifier again returns the first class, creates nothing
    and leaves the cache as it is. *)
Theorem accessor_binds_each_tenant_to_its_own_class :
  ∀ (String_of : value -> string) (P P1 P2 P3 : MongoTenant.MongoTenant) (this : Model)
    (t1 t2 : value) (n n1 n2 n3 : nat) (r1 r2 r3 : ModelClass),
    MongoTenant.isEnabled P = true ->
    ordinary (modelName this) (String_of t1) ->
    ordinary (modelName this) (String_of t2) ->
    String_of t1 ≠ String_of t2 ->
    cached P (modelName this) (String_of t1) = None ->
    cached P (modelName this) (String_of t2) = None ->
    MongoTenant.accessor String_of P this t1 n = (r1, P1, n1) ->
    MongoTenant.accessor String_of P1 this t2 n1 = (r2, P2, n2) ->
    MongoTenant.accessor String_of P2 this t1 n2 = (r3, P3, n3) ->
    ∃ m1 m2,
      r1 = Bound m1 ∧ r2 = Bound m2
      ∧ (∀ fields, MongoTenantModel.getTenant (New m1 fields) = t1)
      ∧ (∀ fields, MongoTenantModel.getTenant (New m2 fields) = t2)
      ∧ BaseModel m1 = this ∧ BaseModel m2 = this
      ∧ stamp m1 ≠ stamp m2
      ∧ r3 = r1 ∧ n3 = n2 ∧ P3 = P2
      ∧ cached P3 (modelName this) (String_of t1) = Some m1
      ∧ cached P3 (modelName this) (String_of t2) = Some m2.
Proof.
  intros String_of P P1 P2 P3 this t1 t2 n n1 n2 n3 r1 r2 r3 He Ho1 Ho2 Hstr Hc1 Hc2
    H1 H2 H3.
  destruct (accessor_ordinary String_of P P1 this t1 n n1 r1 He Ho1 H1)
    as (Hopt1 & _ & Hoth1 & Hme1).
  rewrite Hc1 in Hme1. destruct Hme1 as (m1 & Hf1 & -> & Hin1).
  apply createTenantAwareModel_creates in Hf1 as (Hlt1 & Hst1 & Hb1 & Ht1 & _).
  assert (MongoTenant.isEnabled P1 = true) as He1
    by (unfold MongoTenant.isEnabled; by rewrite Hopt1).
  destruct (accessor_ordinary String_of P1 P2 this t2 n1 n2 r2 He1 Ho2 H2)
    as (Hopt2 & _ & Hoth2 & Hme2).
  rewrite (Hoth1 (modelName this) (String_of t2)), Hc2 in Hme2 by congruence.
  destruct Hme2 as (m2 & Hf2 & -> & Hin2).
  apply createTenantAwareModel_creates in Hf2 as (Hlt2 & Hst2 & Hb2 & Ht2 & _).
  assert (MongoTenant.isEnabled P2 = true) as He2
    by (unfold MongoTenant.isEnabled; by rewrite Hopt2).
  destruct (accessor_ordinary String_of P2 P3 this t1 n2 n3 r3 He2 Ho1 H3)
    as (_ & _ & Hoth3 & Hme3).
  rewrite (Hoth2 (modelName this) (String_of t1)), Hin1 in Hme3 by congruence.
  destruct Hme3 as (-> & -> & ->).
  exists m1, m2. repeat split; try done.
  - lia.
  - by rewrite (Hoth2 (modelName this) (String_of t1)) by congruence.
Qed.

(** X15. Two tenant identifiers with the same string form, the first not
    cached yet, the name of the model and the string naming no member of
    [Object.prototype]: the class the accessor returns for the second
    identifier is the class it created for the first, and the objects of
    that class report the first identifier as their tenant, also when the
    two identifiers differ. *)
Theorem accessor_binds_a_string_form_to_the_first_identifier :
  ∀ (String_of : value -> string) (P P1 P2 : MongoTenant.MongoTenant) (this : Model)
    (t1 t2 : value) (n n1 n2 : nat) (r1 r2 : ModelClass),
    MongoTenant.isEnabled P = true ->
    ordinary (modelName this) (String_of t1) ->
    String_of t1 = String_of t2 ->
    cached P (modelName this) (String_of t1) = None ->
    MongoTenant.accessor String_of P this t1 n = (r1, P1, n1) ->
    MongoTenant.accessor String_of P1 this t2 n1 = (r2, P2, n2) ->
    ∃ m, r2 = Bound m ∧ r1 = Bound m ∧ n2 = n1 ∧ P2 = P1
         ∧ ∀ fields, MongoTenantModel.getTenant (New m fields) = t1.
Proof.
  intros String_of P P1 P2 this t1 t2 n n1 n2 r1 r2 He Ho Hstr Hc H1 H2.
  destruct (accessor_ordinary String_of P P1 this t1 n n1 r1 He Ho H1)
    as (Hopt1 & _ & _ & Hme1).
  rewrite Hc in Hme1. destruct Hme1 as (m & Hf & -> & Hin).
  apply createTenantAwareModel_creates in Hf as (_ & _ & _ & Ht & _).
  assert (MongoTenant.isEnabled P1 = true) as He1
    by (unfold MongoTenant.isEnabled; by rewrite Hopt1).
  rewrite Hstr in Ho, Hin.
  destruct (accessor_ordinary String_of P1 P2 this t2 n1 n2 r2 He1 Ho H2)
    as (_ & _ & _ & Hme2).
  rewrite Hin in Hme2. destruct Hme2 as (-> & -> & ->).
  exists m. done.
Qed.

(** X16. The cache goes by the name of the model: when the accessor is called
    on a second model that has the name of the first (not cached yet for the
    tenant, name and tenant string naming no member of [Object.prototype]),
    it returns the class it created for the first model, whose base is the
    first model, not the one it was called on. *)
Theorem accessor_goes_by_the_model_name :
  ∀ (String_of : value -> string) (P P1 P2 : MongoTenant.MongoTenant) (this1 this2 : Model)
    (t : value) (n n1 n2 : nat) (r1 r2 : ModelClass),
    MongoTenant.isEnabled P = true ->
    ordinary (modelName this1) (String_of t) ->
    modelName this1 = modelName this2 ->
    cached P (modelName this1) (String_of t) = None ->
    MongoTenant.accessor String_of P this1 t n = (r1, P1, n1) ->
    MongoTenant.accessor String_of P1 this2 t n1 = (r2, P2, n2) ->
    ∃ m, r1 = Bound m ∧ r2 = Bound m ∧ BaseModel m = this1 ∧ n2 = n1.
Proof.
  intros String_of P P1 P2 this1 this2 t n n1 n2 r1 r2 He Ho Hname Hc H1 H2.
  destruct (accessor_ordinary String_of P P1 this1 t n n1 r1 He Ho H1)
    as (Hopt1 & _ & _ & Hme1).
  rewrite Hc in Hme1. destruct Hme1 as (m & Hf & -> & Hin).
  apply createTenantAwareModel_creates in Hf as (_ & _ & Hb & _).
  assert (MongoTenant.isEnabled P1 = true) as He1
    by (unfold MongoTenant.isEnabled; by rewrite Hopt1).
  rewrite Hname in Ho, Hin.
  destruct (accessor_ordinary String_of P1 P2 this2 t n1 n2 r2 He1 Ho H2)
    as (_ & _ & _ & Hme2).
  rewrite Hin in Hme2. destruct Hme2 as (-> & -> & _).
  exists m. done.
Qed.

(** X17. The class [createTenantAwareModel] returns keeps, as its own [db],
    the connection of the base model; the objects it constructs have the
    tenant-aware connection derived from that connection, report the tenant
    of the class and have tenant context. The class has every own property
    of the base model, with its value, except [length], [name], [prototype],
    [arguments] and [caller]; and it has discriminators exactly when the
    base model has, one per discriminator of the base model under the same
    key and in the same order, each a class based on that discriminator and
    created for the same tenant and tenant field. *)
Theorem createTenantAwareModel_derives_statics_and_discriminators :
  ∀ (key : string) (tenant : value) (B : Model) (n n' : nat) (m : BoundModel),
    MongoTenant.createTenantAwareModel key B tenant n = (m, n') ->
    Model_db (Bound m) = Some (model_db B)
    ∧ (∀ fields,
         MongoTenantModel.db (New m fields) = TenantAwareDb (model_db B) tenant
         ∧ MongoTenantModel.getTenant (New m fields) = tenant
         ∧ MongoTenantModel.hasTenantContext (New m fields) = true)
    ∧ (∀ k, lookup_prop k (bound_inherited m)
            = if bool_decide (k ∈ ["length"; "name"; "prototype"; "arguments"; "caller"])
              then None else lookup_prop k (ownProperties B))
    ∧ match model_discriminators B with
      | None => bound_discriminators m = None
      | Some l => ∃ l', bound_discriminators m = Some l'
                        ∧ Forall2 (bound_like key tenant) l l'
      end.
Proof.
  intros key tenant B n n' m Hm.
  pose proof (createTenantAwareModel_creates _ _ _ _ _ _ Hm)
    as (_ & _ & Hb & Ht & _ & Hdb & Hi).
  split; [simpl; by rewrite Hb|].
  split; [intros fields; unfold MongoTenantModel.db, MongoTenantModel.getTenant; simpl;
          by rewrite Hdb, Ht|].
  split; [intros k; rewrite Hi; apply inherit_statics_lookup|].
  clear Hb Ht Hdb Hi. revert Hm. destruct B as [name db ps ds].
  cbn [MongoTenant.createTenantAwareModel model_discriminators].
  destruct ds as [l|]; [|by intros [= <- <-]].
  match goal with
  | |- (let '(_, _) := ?go l (S n) in _) = _ -> _ =>
      assert (∀ j : nat, Forall2 (bound_like key tenant) l (fst (go l j))) as Hall
  end.
  { induction l as [|[k d] r IHr]; intros j; [constructor|].
    cbn -[MongoTenant.createTenantAwareModel].
    destruct (MongoTenant.createTenantAwareModel key d tenant j) as [m1 n1] eqn:E1.
    apply createTenantAwareModel_creates in E1 as (_ & _ & Hb & Ht & Hk & _).
    specialize (IHr n1).
    match goal with
    | |- Forall2 _ _ (fst (let '(_, _) := ?x in _)) => destruct x as [ms n2]
    end.
    simpl in *. constructor; [|done]. by repeat split. }
  specialize (Hall (S n)).
  match goal with
  | |- (let '(_, _) := ?x in _) = _ -> _ => destruct x as [l' n2]
  end.
  simpl in Hall. intros [= <- <-]. simpl. by exists l'.
Qed.

(** ** Models fetched through the tenant-aware connection *)

Lemma compatible_iff_same_key (self other : MongoTenant.MongoTenant) :
  MongoTenant.isCompatibleTo self (Some (MongoTenant.as_object other))
  = bool_decide (MongoTenant.getTenantIdKey self = MongoTenant.getTenantIdKey other).
Proof.
  simpl. unfold strict_eq.
  destruct (decide (MongoTenant.getTenantIdKey self = MongoTenant.getTenantIdKey other))
    as [Heq|Hne].
  - rewrite Heq. by rewrite !bool_decide_eq_true_2.
  - rewrite !bool_decide_eq_false_2; [done | done | congruence].
Qed.

(** X18. [model(name)] of the tenant-aware connection hands back the model
    registered under the name as it is, unbound, leaving registry and class
    counter alone, when that model carries no plugin or a plugin with a
    tenant field of another name; and it fails with the host's own error
    when nothing is registered under the name. *)
Theorem aware_connection_leaves_incompatible_models_unbound :
  ∀ (String_of : value -> string) (self : MongoTenant.MongoTenant) (tenantId : value)
    (reg : AwareDb.registry) (name : string) (n : nat),
    match reg !! name with
    | None => AwareDb.model String_of self tenantId reg name n = AwareDb.MissingSchema
    | Some (unawareModel, None) =>
        AwareDb.model String_of self tenantId reg name n
        = AwareDb.Fetched (Unbound unawareModel) reg n
    | Some (unawareModel, Some other) =>
        MongoTenant.getTenantIdKey other ≠ MongoTenant.getTenantIdKey self ->
        AwareDb.model String_of self tenantId reg name n
        = AwareDb.Fetched (Unbound unawareModel) reg n
    end.
Proof.
  intros String_of self tenantId reg name n. unfold AwareDb.model.
  destruct (reg !! name) as [[unawareModel [other|]]|]; [|done|done].
  intros Hne. cbn [fmap option_fmap option_map]. rewrite compatible_iff_same_key.
  rewrite bool_decide_eq_false_2 by congruence. done.
Qed.

(** X19. For a model registered with an enabled plugin that has the tenant
    field name of this plugin and whose accessor is registered as a static
    of its schema, the name of the model and the string form of the tenant
    identifier of the connection naming no member of [Object.prototype]:
    [model(name)] of the tenant-aware connection returns a class bound by
    that plugin, the one its cache holds for the model and that string; the
    updated plugin takes its place in the registry, and fetching the model
    again returns the same class and changes nothing more. *)
Theorem aware_connection_binds_compatible_models :
  ∀ (String_of : value -> string) (self other : MongoTenant.MongoTenant) (tenantId : value)
    (reg : AwareDb.registry) (name : string) (unawareModel : Model) (n : nat),
    reg !! name = Some (unawareModel, Some other) ->
    MongoTenant.getTenantIdKey other = MongoTenant.getTenantIdKey self ->
    MongoTenant.isEnabled other = true ->
    lookup_prop (MongoTenant.getAccessorMethod other) (statics (MongoTenant.schema other))
    = Some AccessorFunction ->
    ordinary (modelName unawareModel) (String_of tenantId) ->
    ∃ m other' n',
      AwareDb.model String_of self tenantId reg name n
      = AwareDb.Fetched (Bound m) (<[name := (unawareModel, Some other')]> reg) n'
      ∧ cached other' (modelName unawareModel) (String_of tenantId) = Some m
      ∧ AwareDb.model String_of self tenantId
          (<[name := (unawareModel, Some other')]> reg) name n'
        = AwareDb.Fetched (Bound m) (<[name := (unawareModel, Some other')]> reg) n'.
Proof.
  intros String_of self other tenantId reg name unawareModel n Hreg Hkey He Hst Hord.
  destruct (MongoTenant.accessor String_of other unawareModel tenantId n)
    as [[cls other'] n'] eqn:Hacc.
  destruct (accessor_ordinary String_of other other' unawareModel tenantId n n' cls
              He Hord Hacc) as (Ho & Hs & _ & Hme).
  assert (∃ m, cls = Bound m
               ∧ cached other' (modelName unawareModel) (String_of tenantId) = Some m)
    as (m & -> & Hin).
  { destruct (cached other _ _) as [m|] eqn:Hc.
    - destruct Hme as (-> & _ & ->). by exists m.
    - destruct Hme as (m & _ & -> & ?). by exists m. }
  assert (MongoTenant.isEnabled other' = true) as He'
    by (unfold MongoTenant.isEnabled; by rewrite Ho).
  exists m, other', n'. split; [|split; [exact Hin|]].
  - unfold AwareDb.model. rewrite Hreg. cbn [fmap option_fmap option_map].
    rewrite compatible_iff_same_key, bool_decide_eq_true_2 by done.
    cbn [negb]. by rewrite Hst, Hacc.
  - unfold AwareDb.model. rewrite lookup_insert_eq. cbn [fmap option_fmap option_map].
    rewrite compatible_iff_same_key.
    rewrite bool_decide_eq_true_2
      by (unfold MongoTenant.getTenantIdKey in *; by rewrite Ho).
    cbn [negb]. unfold MongoTenant.getAccessorMethod. rewrite Ho, Hs.
    fold (MongoTenant.getAccessorMethod other). rewrite Hst.
    destruct (MongoTenant.accessor String_of other' unawareModel tenantId n')
      as [[cls2 other2] n2] eqn:Hacc2.
    destruct (accessor_ordinary String_of other' other2 unawareModel tenantId n' n2 cls2
                He' Hord Hacc2) as (_ & _ & _ & Hme2).
    rewrite Hin in Hme2. destruct Hme2 as (-> & -> & ->).
    by rewrite insert_insert_eq.
Qed.

(** ** The further properties at sample inputs *)

Lemma accessor_keeps_the_cached_classes_witness :
  let first :=
    MongoTenant.accessor Sample.String_of Sample.plugin Sample.User (VString "t1") 0 in
  let second :=
    MongoTenant.accessor Sample.String_of first.1.2 Fixture.Post (VString "t2") first.2 in
  cached second.1.2 "User" "t1" = Some Sample.User_t1.
Proof.
  intros first second.
  destruct (accessor_keeps_the_cached_classes Sample.String_of first.1.2 second.1.2
              Fixture.Post (VString "t2") first.2 second.2 second.1.1
              "User" "t1" Sample.User_t1) as (H & _).
  - reflexivity.
  - apply triple_eta.
  - reflexivity.
  - exact H.
Defined.

Lemma accessor_binds_each_tenant_to_its_own_class_witness :
  let first :=
    MongoTenant.accessor Sample.String_of Sample.plugin Sample.User (VString "t1") 0 in
  let second :=
    MongoTenant.accessor Sample.String_of first.1.2 Sample.User (VString "t2") first.2 in
  let third :=
    MongoTenant.accessor Sample.String_of second.1.2 Sample.User (VString "t1") second.2 in
  ∃ m1 m2,
    first.1.1 = Bound m1 ∧ second.1.1 = Bound m2
    ∧ MongoTenantModel.getTenant (New m1 []) = VString "t1"
    ∧ MongoTenantModel.getTenant (New m2 []) = VString "t2"
    ∧ stamp m1 ≠ stamp m2 ∧ third.1.1 = first.1.1 ∧ third.2 = second.2.
Proof.
  intros first second third.
  destruct (accessor_binds_each_tenant_to_its_own_class Sample.String_of Sample.plugin
              first.1.2 second.1.2 third.1.2 Sample.User (VString "t1") (VString "t2")
              0 first.2 second.2 third.2 first.1.1 second.1.1 third.1.1)
    as (m1 & m2 & H1 & H2 & Ht1 & Ht2 & _ & _ & Hs & H3 & Hn & _).
  - reflexivity.
  - split; reflexivity.
  - split; reflexivity.
  - discriminate.
  - reflexivity.
  - reflexivity.
  - apply triple_eta.
  - apply triple_eta.
  - apply triple_eta.
  - exists m1, m2. repeat split; try done.
Defined.

Lemma accessor_binds_a_string_form_to_the_first_identifier_witness :
  let first :=
    MongoTenant.accessor Sample.String_of Sample.plugin Sample.User (VNumber 1) 0 in
  let second :=
    MongoTenant.accessor Sample.String_of first.1.2 Sample.User (VString "1") first.2 in
  ∃ m, second.1.1 = Bound m ∧ MongoTenantModel.getTenant (New m []) = VNumber 1.
Proof.
  intros first second.
  destruct (accessor_binds_a_string_form_to_the_first_identifier Sample.String_of
              Sample.plugin first.1.2 second.1.2 Sample.User (VNumber 1) (VString "1")
              0 first.2 second.2 first.1.1 second.1.1) as (m & H2 & _ & _ & _ & H).
  - reflexivity.
  - split; reflexivity.
  - reflexivity.
  - reflexivity.
  - apply triple_eta.
  - apply triple_eta.
  - exists m. split; [exact H2 | apply H].
Defined.

Lemma accessor_goes_by_the_model_name_witness :
  let first :=
    MongoTenant.accessor Sample.String_of Sample.plugin Sample.User (VString "t1") 0 in
  let second :=
    MongoTenant.accessor Sample.String_of first.1.2 Fixture.User_elsewhere
      (VString "t1") first.2 in
  ∃ m, second.1.1 = Bound m ∧ BaseModel m = Sample.User.
Proof.
  intros first second.
  destruct (accessor_goes_by_the_model_name Sample.String_of Sample.plugin
              first.1.2 second.1.2 Sample.User Fixture.User_elsewhere (VString "t1")
              0 first.2 second.2 first.1.1 second.1.1) as (m & _ & H2 & Hb & _).
  - reflexivity.
  - split; reflexivity.
  - reflexivity.
  - reflexivity.
  - apply triple_eta.
  - apply triple_eta.
  - exists m. done.
Defined.

Lemma createTenantAwareModel_derives_statics_and_discriminators_witness :
  let m := (MongoTenant.createTenantAwareModel "tenant" Fixture.Post (VString "t1") 0).1 in
  Model_db (Bound m) = Some (BaseConnection "app")
  ∧ MongoTenantModel.db (New m []) = TenantAwareDb (BaseConnection "app") (VString "t1")
  ∧ lookup_prop "collectionName" (bound_inherited m) = Some (Data (VString "posts"))
  ∧ lookup_prop "name" (bound_inherited m) = None
  ∧ ∃ l', bound_discriminators m = Some l'
          ∧ Forall2 (bound_like "tenant" (VString "t1")) [("Video", Fixture.Video)] l'.
Proof.
  intros m.
  destruct (createTenantAwareModel_derives_statics_and_discriminators "tenant" (VString "t1")
              Fixture.Post 0
              (MongoTenant.createTenantAwareModel "tenant" Fixture.Post (VString "t1") 0).2
              m (surjective_pairing _)) as (Hdb & Hinst & Hst & Hds).
  split; [exact Hdb|]. split; [apply (Hinst [])|].
  split; [exact (Hst "collectionName")|]. split; [exact (Hst "name")|].
  exact Hds.
Defined.

Lemma aware_connection_leaves_incompatible_models_unbound_witness :
  AwareDb.model Sample.String_of Sample.plugin (VString "t1") Fixture.models "Log" 0
  = AwareDb.Fetched (Unbound Fixture.Log) Fixture.models 0
  ∧ AwareDb.model Sample.String_of Sample.plugin (VString "t1") Fixture.models "Order" 0
    = AwareDb.Fetched (Unbound Fixture.Order) Fixture.models 0
  ∧ AwareDb.model Sample.String_of Sample.plugin (VString "t1") Fixture.models "Invoice" 0
    = AwareDb.MissingSchema.
Proof.
  split; [|split].
  - exact (aware_connection_leaves_incompatible_models_unbound Sample.String_of
             Sample.plugin (VString "t1") Fixture.models "Log" 0).
  - refine (aware_connection_leaves_incompatible_models_unbound Sample.String_of
              Sample.plugin (VString "t1") Fixture.models "Order" 0 _).
    discriminate.
  - exact (aware_connection_leaves_incompatible_models_unbound Sample.String_of
             Sample.plugin (VString "t1") Fixture.models "Invoice" 0).
Defined.

Lemma aware_connection_binds_compatible_models_witness :
  ∃ m other' n',
    AwareDb.model Sample.String_of Sample.plugin (VString "t1") Fixture.models "User" 0
    = AwareDb.Fetched (Bound m) (<["User" := (Sample.User, Some other')]> Fixture.models) n'
    ∧ cached other' "User" "t1" = Some m.
Proof.
  destruct (aware_connection_binds_compatible_models Sample.String_of Sample.plugin
              Sample.plugin (VString "t1") Fixture.models "User" Sample.User 0)
    as (m & other' & n' & Hrun & Hc & _).
  - reflexivity.
  - reflexivity.
  - reflexivity.
  - reflexivity.
  - split; reflexivity.
  - exists m, other', n'. split; [exact Hrun | exact Hc].
Defined.
